(** * server/bot_runtime.py: the thread-based runtime controller

    A shallow embedding of [BotStatus] and [BotRuntime] and the proofs of the
    lifecycle properties of [start], [stop], [status] and of the worker
    [_thread_main].

    Modelling decisions.
    - Every [with self._lock:] block of the source is one atomic transition:
      the blocks are the only places that touch [_status], [_thread] and the
      event, and they all hold the same lock for their whole extent.
    - A [threading.Thread] is an entry of a thread table; the handle stored
      in [_thread] is its index.  The entry is the program counter of
      [_thread_main].  [Thread.is_alive()] is true from [t.start()] until the
      thread has terminated, which is after [_thread_main] has returned.
    - The single [threading.Event] created in [__init__] is a boolean flag;
      the task body only reads it.
    - Creating a thread and taking the lock do not fail.
    - An exception is what this code observes of it: whether
      [except Exception] catches it, and what [repr(e)] does.
    - Python strings are [string]s, read as sequences of code points 0..255. *)

From Stdlib Require Import String Ascii List Bool Arith Lia.
From stdpp Require Import base list strings.

Local Open Scope string_scope.
Local Open Scope list_scope.

(** ** Python exceptions and [repr] *)

Module Py.

(** An exception object, as far as this code observes it.  Line 81 asks
    whether it is an instance of [Exception] ([ValueError] is, [SystemExit]
    and [KeyboardInterrupt] are not); line 83 calls [repr(e)], which Python
    dispatches to the [__repr__] of the object's class and which returns a
    string, the empty one included, or raises in turn. *)
Inductive Exc : Type :=
| Showing (is_exception : bool) (text : string)
| Failing (is_exception : bool) (raised : Exc).

(** What a call of [repr(e)] does. *)
Inductive Repr :=
| Shows (text : string)
| Fails (raised : Exc).

(** [isinstance(e, Exception)] *)
Definition exc_is_Exception (e : Exc) : bool :=
  match e with
  | Showing b _ | Failing b _ => b
  end.

(** [repr(e)] *)
Definition repr (e : Exc) : Repr :=
  match e with
  | Showing _ text => Shows text
  | Failing _ e' => Fails e'
  end.

Definition squote : ascii := ascii_of_nat 39.
Definition dquote : ascii := ascii_of_nat 34.
Definition backslash : ascii := ascii_of_nat 92.

Definition hexdigit (n : nat) : ascii :=
  match get n "0123456789abcdef" with
  | Some c => c
  | None => "0"%char
  end.

Definition hex2 (n : nat) : string :=
  String (hexdigit (n / 16)) (String (hexdigit (n mod 16)) EmptyString).

(** [str.isprintable] on one code point below 256: the C0 and C1 controls,
    no-break space and soft hyphen are not printable. *)
Definition isprintable (n : nat) : bool :=
  ((32 <=? n) && (n <? 127) || (161 <=? n) && negb (n =? 173))%nat.

Fixpoint occurs (c : ascii) (s : string) : bool :=
  match s with
  | EmptyString => false
  | String d s' => Ascii.eqb c d || occurs c s'
  end.

(** The quote [repr] puts around a string: a double quote when the string
    has single quotes and no double quote, a single quote otherwise. *)
Definition quote_of (s : string) : ascii :=
  if occurs squote s && negb (occurs dquote s) then dquote else squote.

Definition escape_char (q c : ascii) : string :=
  let n := nat_of_ascii c in
  if Ascii.eqb c q || Ascii.eqb c backslash then String backslash (String c EmptyString)
  else if (n =? 9)%nat then String backslash "t"
  else if (n =? 10)%nat then String backslash "n"
  else if (n =? 13)%nat then String backslash "r"
  else if isprintable n then String c EmptyString
  else String backslash ("x" +:+ hex2 n).

Fixpoint escape (q : ascii) (s : string) : string :=
  match s with
  | EmptyString => EmptyString
  | String c s' => escape_char q c +:+ escape q s'
  end.

Definition repr_str (s : string) : string :=
  let q := quote_of s in
  String q (escape q s +:+ String q EmptyString).

Fixpoint join (sep : string) (l : list string) : string :=
  match l with
  | [] => EmptyString
  | [x] => x
  | x :: l' => x +:+ sep +:+ join sep l'
  end.

(** [BaseException.__repr__] for an object of class [cls] whose arguments
    are the strings [args]: the class name followed by the arguments in
    parentheses (one argument is not printed as a one-element tuple). *)
Definition repr_builtin (cls : string) (args : list string) : string :=
  cls +:+ "(" +:+ join ", " (map repr_str args) +:+ ")".

(** An exception of a class that keeps the built-in [__repr__]. *)
Definition builtin (cls : string) (args : list string) (is_exception : bool)
  : Exc :=
  Showing is_exception (repr_builtin cls args).

(** [needle in hay] *)
Fixpoint contains (needle hay : string) : bool :=
  String.prefix needle hay ||
  match hay with
  | EmptyString => false
  | String _ hay' => contains needle hay'
  end.

(** A character that [repr] copies as it is whatever the quote: printable
    and neither a quote nor a backslash. *)
Definition plain (c : ascii) : bool :=
  isprintable (nat_of_ascii c) && negb (Ascii.eqb c squote) &&
  negb (Ascii.eqb c dquote) && negb (Ascii.eqb c backslash).

Fixpoint all_plain (s : string) : bool :=
  match s with
  | EmptyString => true
  | String c s' => plain c && all_plain s'
  end.

Definition ValueError (msg : string) : Exc :=
  builtin "ValueError" [msg] true.

Definition SystemExit (msg : string) : Exc :=
  builtin "SystemExit" [msg] false.

(** An [Exception] whose class overrides [__repr__] to return the empty
    string, and one whose [__repr__] raises. *)
Definition Blank : Exc := Showing true EmptyString.

Definition Unprintable : Exc := Failing true (ValueError "no repr").

End Py.

(** ** The status value *)

(** [BotStatus] (frozen dataclass): [state] is a Python [str]. *)
Record BotStatus := {
  running : bool;
  state : string;
  detail : string;
}.

(** ** The task body

    [_run_bot(stop_event)] runs on the worker thread and may block for as
    long as it likes, so it is a resumable computation: one [body_step] is
    the code between two scheduling points, and it sees the value
    [stop_event.is_set()] has at that moment. *)

Inductive BodyStep (B : Type) :=
| Continue (b : B)
| Return
| Raise (e : Py.Exc).
Arguments Continue {B} b.
Arguments Return {B}.
Arguments Raise {B} e.

Record TaskBody (B : Type) := {
  body_start : B;
  body_step : bool -> B -> BodyStep B;
}.
Arguments body_start {B} _.
Arguments body_step {B} _ _ _.

(** The body the source ships (lines 116-117):
    [while not stop_event.is_set(): time.sleep(0.1)]. *)
Definition _run_bot : TaskBody unit := {|
  body_start := tt;
  body_step := fun is_set _ => if is_set then Return else Continue tt;
|}.

(** The task body of the crash scenario: it raises [e] at once. *)
Definition raising (e : Py.Exc) : TaskBody unit := {|
  body_start := tt;
  body_step := fun _ _ => Raise e;
|}.

(** ** Worker threads *)

(** How a run of [_thread_main] ended: by line 80; by line 83; with an
    exception [e] that [except Exception] does not catch; or with the
    exception [e'] that [repr(e)] raised inside the handler, at line 83. *)
Inductive Outcome :=
| Finished
| Crashed (e : Py.Exc)
| Escaped (e : Py.Exc)
| HandlerFailed (e e' : Py.Exc).

(** The program counter of a thread running [_thread_main]. *)
Inductive Pc (B : Type) :=
| AtEnter                  (* started; before the block of lines 72-73 *)
| AtCall                   (* before the call of line 76 *)
| InBody (b : B)           (* inside [_run_bot] *)
| AtFinished               (* [_run_bot] returned; before lines 79-80 *)
| AtExcept (e : Py.Exc)    (* [e] caught at line 81; before lines 82-83 *)
| AtExit (o : Outcome)     (* [_thread_main] is over, the thread not yet *)
| Dead (o : Outcome).      (* the thread has terminated *)
Arguments AtEnter {B}.
Arguments AtCall {B}.
Arguments InBody {B} b.
Arguments AtFinished {B}.
Arguments AtExcept {B} e.
Arguments AtExit {B} o.
Arguments Dead {B} o.

(** [Thread.is_alive()] *)
Definition is_alive {B} (pc : Pc B) : bool :=
  match pc with
  | Dead _ => false
  | _ => true
  end.

(** What one step of a worker does. *)
Inductive Did :=
| SetStatus (s : BotStatus)
| CallRunBot
| Polled
| Returned
| Raised (e : Py.Exc)
| HandlerRaised (e' : Py.Exc)
| Exited.

(** ** The runtime object and the threads it has created *)

Record World (B : Type) := {
  _status : BotStatus;
  _thread : option nat;
  _stop_event : bool;
  threads : list (Pc B);
}.
Arguments _status {B} _.
Arguments _thread {B} _.
Arguments _stop_event {B} _.
Arguments threads {B} _.
Arguments Build_World {B} _ _ _ _.

(** [BotRuntime.__init__] *)
Definition init (B : Type) : World B := {|
  _status := {| running := false; state := "idle"; detail := "not started" |};
  _thread := None;
  _stop_event := false;
  threads := [];
|}.

Inductive Action :=
| DoStatus
| DoStart
| DoStop
| DoWorker (t : nat).

#[global] Instance Action_eq_dec : EqDecision Action.
Proof. solve_decision. Defined.

Inductive Obs :=
| Ret (a : Action) (s : BotStatus)
| Work (t : nat) (d : Did)
| Idle.

Section Runtime.

Context {B : Type} (run_bot : TaskBody B).

(** [self._thread and self._thread.is_alive()] *)
Definition thread_alive (w : World B) : bool :=
  match _thread w with
  | Some t =>
      match threads w !! t with
      | Some pc => is_alive pc
      | None => false
      end
  | None => false
  end.

Definition set_status (s : BotStatus) (w : World B) : World B :=
  {| _status := s; _thread := _thread w; _stop_event := _stop_event w;
     threads := threads w |}.

(** [BotRuntime.status] *)
Definition status (w : World B) : BotStatus * World B :=
  (_status w, w).

(** [BotRuntime.start] *)
Definition start (w : World B) : BotStatus * World B :=
  if thread_alive w then
    let w1 := set_status {| running := true; state := "running";
                            detail := "already running" |} w in
    (_status w1, w1)
  else
    let w1 := {| _status := {| running := true; state := "starting";
                               detail := "launching thread" |};
                 _thread := Some (length (threads w));
                 _stop_event := false;
                 threads := threads w ++ [AtEnter] |} in
    (_status w1, w1).

(** [BotRuntime.stop] *)
Definition stop (w : World B) : BotStatus * World B :=
  if negb (thread_alive w) then
    let w1 := set_status {| running := false; state := "stopped";
                            detail := "already stopped" |} w in
    (_status w1, w1)
  else
    let w1 := {| _status := {| running := true; state := "stopping";
                               detail := "stop requested" |};
                 _thread := _thread w;
                 _stop_event := true;
                 threads := threads w |} in
    (_status w1, w1).

(** [BotRuntime._thread_main], one step at a time: the next program counter
    and what the step did.  [is_set] is the state of [self._stop_event],
    which the body reads through the reference it was given at line 76. *)
Definition pc_step (is_set : bool) (pc : Pc B) : option (Did * Pc B) :=
  match pc with
  | AtEnter =>
      Some (SetStatus {| running := true; state := "running"; detail := "started" |},
            AtCall)
  | AtCall => Some (CallRunBot, InBody (body_start run_bot))
  | InBody b =>
      match body_step run_bot is_set b with
      | Continue b' => Some (Polled, InBody b')
      | Return => Some (Returned, AtFinished)
      | Raise e =>
          Some (Raised e, if Py.exc_is_Exception e then AtExcept e else AtExit (Escaped e))
      end
  | AtFinished =>
      Some (SetStatus {| running := false; state := "stopped"; detail := "finished" |},
            AtExit Finished)
  | AtExcept e =>
      match Py.repr e with
      | Py.Shows text =>
          Some (SetStatus {| running := false; state := "crashed"; detail := text |},
                AtExit (Crashed e))
      | Py.Fails e' => Some (HandlerRaised e', AtExit (HandlerFailed e e'))
      end
  | AtExit o => Some (Exited, Dead o)
  | Dead _ => None
  end.

Definition apply_did (d : Did) (s : BotStatus) : BotStatus :=
  match d with
  | SetStatus s' => s'
  | _ => s
  end.

(** One step of thread [t]; [None] when [t] is not a live thread. *)
Definition thread_step (t : nat) (w : World B) : option (Did * World B) :=
  match threads w !! t with
  | Some pc =>
      match pc_step (_stop_event w) pc with
      | Some (d, pc') =>
          Some (d, {| _status := apply_did d (_status w);
                      _thread := _thread w;
                      _stop_event := _stop_event w;
                      threads := <[t := pc']> (threads w) |})
      | None => None
      end
  | None => None
  end.

(** One scheduling decision: a caller runs one of the three operations, or
    a worker thread makes one step (nothing happens if it cannot). *)
Definition exec (a : Action) (w : World B) : Obs * World B :=
  match a with
  | DoStatus => let '(r, w') := status w in (Ret DoStatus r, w')
  | DoStart => let '(r, w') := start w in (Ret DoStart r, w')
  | DoStop => let '(r, w') := stop w in (Ret DoStop r, w')
  | DoWorker t =>
      match thread_step t w with
      | Some (d, w') => (Work t d, w')
      | None => (Idle, w)
      end
  end.

(** A schedule run from [w]: what was observed, in order, and the world
    reached. *)
Fixpoint run (sch : list Action) (w : World B) : list Obs * World B :=
  match sch with
  | [] => ([], w)
  | a :: sch' =>
      let '(o, w1) := exec a w in
      let '(os, w2) := run sch' w1 in
      (o :: os, w2)
  end.

(** The steps of thread [t] among the observations. *)
Fixpoint worker_log (t : nat) (os : list Obs) : list Did :=
  match os with
  | [] => []
  | Work t' d :: os' =>
      if Nat.eqb t t' then d :: worker_log t os' else worker_log t os'
  | _ :: os' => worker_log t os'
  end.

(** The statuses the callers were handed. *)
Fixpoint returned (os : list Obs) : list BotStatus :=
  match os with
  | [] => []
  | Ret _ s :: os' => s :: returned os'
  | _ :: os' => returned os'
  end.

(** The thread dies within [n] of its own steps if the event stays as it
    is. *)
Fixpoint dies_within (is_set : bool) (n : nat) (pc : Pc B) : bool :=
  negb (is_alive pc) ||
  match n with
  | O => false
  | S n' =>
      match pc_step is_set pc with
      | Some (_, pc') => dies_within is_set n' pc'
      | None => true
      end
  end.

(** The number of live threads in a thread table. *)
Fixpoint live (l : list (Pc B)) : nat :=
  match l with
  | [] => 0
  | pc :: l' => (if is_alive pc then 1 else 0) + live l'
  end.

(** If thread [t] is alive, it is the one [_thread] refers to. *)
Definition owns (t : nat) (w : World B) : Prop :=
  forall pc, threads w !! t = Some pc -> is_alive pc = true -> _thread w = Some t.

(** If thread [t] is alive, it is the one [_thread] refers to and the
    event is set. *)
Definition cancelled (t : nat) (w : World B) : Prop :=
  forall pc, threads w !! t = Some pc -> is_alive pc = true ->
    _thread w = Some t /\ _stop_event w = true.

(** Every live thread is the one [_thread] refers to. *)
Definition sole_owner (w : World B) : Prop :=
  forall t, owns t w.

End Runtime.

(** The status [s] carries the description of a failure of the task body:
    some worker saw the body raise an [Exception] [e], [repr(e)] returned
    the detail, and that worker stored [s]. *)
Definition caused_by (os : list Obs) (s : BotStatus) : Prop :=
  exists t e text,
    Work t (Raised e) ∈ os /\ Py.exc_is_Exception e = true /\
    Py.repr e = Py.Shows text /\ detail s = text /\
    Work t (SetStatus s) ∈ os.

(** The invariant of section 3 of the specification as the code keeps it,
    for a status seen after the observations [os]. *)
Definition status_ok (os : list Obs) (s : BotStatus) : Prop :=
  (running s = true <->
   state s = "starting" \/ state s = "running" \/ state s = "stopping") /\
  (state s = "crashed" -> running s = false /\ caused_by os s).

(** What the handler of lines 81-83 does with the exception [e]. *)
Definition handler_log (e : Py.Exc) : list Did :=
  match Py.repr e with
  | Py.Shows text => [SetStatus (Build_BotStatus false "crashed" text)]
  | Py.Fails e' => [HandlerRaised e']
  end.

(** The last steps of a worker that ended with outcome [o]. *)
Definition outcome_log (o : Outcome) : list Did :=
  match o with
  | Finished =>
      [Returned; SetStatus (Build_BotStatus false "stopped" "finished")]
  | Crashed e | HandlerFailed e _ => Raised e :: handler_log e
  | Escaped e => [Raised e]
  end.

(** What a worker has done after the body was entered and polled. *)
Definition log_tail {B} (pc : Pc B) : list Did :=
  match pc with
  | AtFinished => [Returned]
  | AtExcept e => [Raised e]
  | AtExit o => outcome_log o
  | Dead o => outcome_log o ++ [Exited]
  | _ => []
  end.

(** The outcome agrees with the exception: line 81 caught an [Exception],
    and line 83 stored a status exactly when [repr(e)] returned. *)
Definition outcome_fits (o : Outcome) : Prop :=
  match o with
  | Finished => True
  | Crashed e =>
      Py.exc_is_Exception e = true /\ exists text, Py.repr e = Py.Shows text
  | Escaped e => Py.exc_is_Exception e = false
  | HandlerFailed e e' =>
      Py.exc_is_Exception e = true /\ Py.repr e = Py.Fails e'
  end.

Definition pc_fits {B} (pc : Pc B) : Prop :=
  match pc with
  | AtExcept e => Py.exc_is_Exception e = true
  | AtExit o | Dead o => outcome_fits o
  | _ => True
  end.

(** How the call of [_run_bot] stands, or ended, for a worker at [pc]. *)
Definition body_result {B} (pc : Pc B) : option (BodyStep B) :=
  match pc with
  | AtEnter | AtCall => None
  | InBody b => Some (Continue b)
  | AtFinished => Some Return
  | AtExcept e => Some (Raise e)
  | AtExit o | Dead o =>
      match o with
      | Finished => Some Return
      | Crashed e | Escaped e | HandlerFailed e _ => Some (Raise e)
      end
  end.

(** How many of the body's steps were polls that let it go on, when the
    event showed [flags] at its steps. *)
Definition polls {B} (pc : Pc B) (flags : list bool) : nat :=
  match pc with
  | InBody _ => length flags
  | _ => pred (length flags)
  end.

Section WorkerLog.

Context {B : Type} (run_bot : TaskBody B).

(** One call of [_run_bot] from the state [b], the event showing [flags]
    at its successive steps: where the body stands after the last of them,
    or how it ended at the last of them ([None] when it ended earlier). *)
Fixpoint body_after (flags : list bool) (b : B) : option (BodyStep B) :=
  match flags with
  | [] => Some (Continue b)
  | f :: flags' =>
      match body_step run_bot f b with
      | Continue b' => body_after flags' b'
      | r =>
          match flags' with
          | [] => Some r
          | _ => None
          end
      end
  end.

(** The steps a worker at [pc] has made since it was started: the status
    of line 73, the call of line 76, the polls of one run of the body from
    its start, and the end its program counter tells. *)
Definition log_shape (pc : Pc B) (log : list Did) : Prop :=
  match pc with
  | AtEnter => log = []
  | AtCall => log = [SetStatus (Build_BotStatus true "running" "started")]
  | _ =>
      exists flags,
        log = [SetStatus (Build_BotStatus true "running" "started"); CallRunBot]
              ++ replicate (polls pc flags) Polled ++ log_tail pc /\
        body_after flags (body_start run_bot) = body_result pc /\
        pc_fits pc
  end.

(** The log of every thread of the table has the shape its program counter
    calls for, and a thread that does not exist has no log. *)
Definition logs_ok (os : list Obs) (w : World B) : Prop :=
  forall t,
    match threads w !! t with
    | Some pc => log_shape pc (worker_log t os)
    | None => worker_log t os = []
    end.

End WorkerLog.

(** How often a log calls [_run_bot]. *)
Fixpoint calls (log : list Did) : nat :=
  match log with
  | [] => 0
  | CallRunBot :: log' => S (calls log')
  | _ :: log' => calls log'
  end.

(** The worker at [pc] has passed line 76. *)
Definition entered {B} (pc : Pc B) : bool :=
  match pc with
  | AtEnter | AtCall => false
  | _ => true
  end.

(** What the induction over a schedule carries: the stored status and the
    returned ones are well formed, and a thread waiting in the handler has
    seen its body raise. *)
Definition run_inv {B} (os : list Obs) (w : World B) : Prop :=
  status_ok os (_status w) /\
  Forall (status_ok os) (returned os) /\
  (forall t e, threads w !! t = Some (AtExcept e) ->
     Work t (Raised e) ∈ os /\ Py.exc_is_Exception e = true).

(** Sample runtimes: after a first [start()]; after the worker of the
    crash scenario has caught the exception; after it has died. *)
Definition demo_started : World unit :=
  (start (init unit)).2.

Definition demo_caught : World unit :=
  (run (raising (Py.ValueError "boom"))
       [DoStart; DoWorker 0; DoWorker 0; DoWorker 0] (init unit)).2.

Definition demo_crashed : World unit :=
  (run (raising (Py.ValueError "boom"))
       [DoStart; DoWorker 0; DoWorker 0; DoWorker 0; DoWorker 0; DoWorker 0]
       (init unit)).2.

(** How many steps a schedule gives to thread [t]. *)
Fixpoint count_worker (t : nat) (sch : list Action) : nat :=
  match sch with
  | [] => 0
  | DoWorker t' :: sch' =>
      if Nat.eqb t t' then S (count_worker t sch') else count_worker t sch'
  | _ :: sch' => count_worker t sch'
  end.

(** ** Further vocabulary for the lifecycle *)

(** The worker is still inside [_thread_main] and has not made its last
    status write (lines 72-83 are not over). *)
Definition working {B} (pc : Pc B) : bool :=
  match pc with
  | AtExit _ | Dead _ => false
  | _ => true
  end.

(** The worker has not yet left [_run_bot]. *)
Definition early {B} (pc : Pc B) : bool :=
  match pc with
  | AtEnter | AtCall | InBody _ => true
  | _ => false
  end.

(** The worker has caught nothing and nothing has escaped it. *)
Definition clean {B} (pc : Pc B) : bool :=
  match pc with
  | AtExcept _ => false
  | AtExit o | Dead o =>
      match o with
      | Finished => true
      | _ => false
      end
  | _ => true
  end.

(** How many [start()] calls a schedule makes. *)
Fixpoint count_start (sch : list Action) : nat :=
  match sch with
  | [] => 0
  | DoStart :: sch' => S (count_start sch')
  | _ :: sch' => count_start sch'
  end.

(** An action that is neither [start()] nor [stop()]. *)
Definition quiet (a : Action) : bool :=
  match a with
  | DoStatus | DoWorker _ => true
  | _ => false
  end.

(** The statuses the source constructs with literal fields (lines 36, 45,
    49, 59, 63, 73, 80). *)
Definition literal_statuses : list BotStatus :=
  [ Build_BotStatus false "idle" "not started";
    Build_BotStatus true "running" "already running";
    Build_BotStatus true "starting" "launching thread";
    Build_BotStatus false "stopped" "already stopped";
    Build_BotStatus true "stopping" "stop requested";
    Build_BotStatus true "running" "started";
    Build_BotStatus false "stopped" "finished" ].

(** A status the source can construct: a literal one or that of line 83. *)
Definition constructible (s : BotStatus) : Prop :=
  s ∈ literal_statuses \/
  exists e text,
    Py.repr e = Py.Shows text /\ s = Build_BotStatus false "crashed" text.

(** What the stored status tells about the worker [_thread] refers to. *)
Definition reflects {B} (w : World B) : Prop :=
  (state (_status w) = "idle" ->
   threads w = [] /\ _thread w = None) /\
  (state (_status w) = "starting" ->
   exists t, _thread w = Some t /\ threads w !! t = Some AtEnter /\
             _stop_event w = false) /\
  (state (_status w) = "stopping" ->
   _stop_event w = true /\
   exists t pc, _thread w = Some t /\ threads w !! t = Some pc) /\
  (_status w = Build_BotStatus false "stopped" "finished" ->
   exists t, _thread w = Some t /\
             (threads w !! t = Some (AtExit Finished) \/
              threads w !! t = Some (Dead Finished))) /\
  (state (_status w) = "crashed" ->
   exists t e text,
     _thread w = Some t /\ Py.repr e = Py.Shows text /\
     _status w = Build_BotStatus false "crashed" text /\
     (threads w !! t = Some (AtExit (Crashed e)) \/
      threads w !! t = Some (Dead (Crashed e)))).

(** The thread table is empty and there is no handle, or the handle is the
    last thread of the table. *)
Definition handle_is_last {B} (w : World B) : Prop :=
  match _thread w with
  | None => threads w = []
  | Some t => S t = length (threads w)
  end.

Section Advance.

Context {B : Type} (run_bot : TaskBody B).

(** [n] steps of one worker while the event stays as it is: the status and
    the program counter it leaves (a dead thread makes no step). *)
Fixpoint advance (is_set : bool) (n : nat) (s : BotStatus) (pc : Pc B)
  : BotStatus * Pc B :=
  match n with
  | O => (s, pc)
  | S n' =>
      match pc_step run_bot is_set pc with
      | Some (d, pc') => advance is_set n' (apply_did d s) pc'
      | None => (s, pc)
      end
  end.

End Advance.

Example repr_boom :
  Py.repr (Py.ValueError "boom") = Py.Shows "ValueError('boom')".
Proof. reflexivity. Qed.

Example repr_quote :
  Py.repr_str "it's" = String Py.dquote ("it's" +:+ String Py.dquote EmptyString).
Proof. reflexivity. Qed.

Example repr_newline :
  Py.repr_str (String (ascii_of_nat 10) "x") = "'" +:+ String Py.backslash "nx'".
Proof. reflexivity. Qed.

Example repr_two_args :
  Py.repr (Py.builtin "OSError" ["gone"; "a.txt"] true) =
  Py.Shows "OSError('gone', 'a.txt')".
Proof. reflexivity. Qed.

Example run_demo :
  run _run_bot [DoStart; DoWorker 0; DoStatus; DoWorker 0; DoWorker 0; DoStop;
                DoWorker 0; DoWorker 0; DoWorker 0; DoStatus] (init unit)
  = ([Ret DoStart {| running := true; state := "starting"; detail := "launching thread" |};
      Work 0 (SetStatus {| running := true; state := "running"; detail := "started" |});
      Ret DoStatus {| running := true; state := "running"; detail := "started" |};
      Work 0 CallRunBot; Work 0 Polled;
      Ret DoStop {| running := true; state := "stopping"; detail := "stop requested" |};
      Work 0 Returned;
      Work 0 (SetStatus {| running := false; state := "stopped"; detail := "finished" |});
      Work 0 Exited;
      Ret DoStatus {| running := false; state := "stopped"; detail := "finished" |}],
     {| _status := {| running := false; state := "stopped"; detail := "finished" |};
        _thread := Some 0; _stop_event := true; threads := [Dead Finished] |}).
Proof. reflexivity. Qed.

Example run_crash :
  demo_crashed =
  {| _status := {| running := false; state := "crashed";
                   detail := "ValueError('boom')" |};
     _thread := Some 0; _stop_event := false;
     threads := [Dead (Crashed (Py.ValueError "boom"))] |}.
Proof. reflexivity. Qed.

(** An exception that is not an [Exception] passes the handler: the thread
    ends and the status stays as line 73 left it. *)
Example run_escape :
  (run (raising (Py.SystemExit "bye"))
       [DoStart; DoWorker 0; DoWorker 0; DoWorker 0; DoWorker 0; DoStatus]
       (init unit)).2 =
  {| _status := {| running := true; state := "running"; detail := "started" |};
     _thread := Some 0; _stop_event := false;
     threads := [Dead (Escaped (Py.SystemExit "bye"))] |}.
Proof. reflexivity. Qed.

(** An [Exception] whose [repr] raises: the handler stores nothing. *)
Example run_unprintable :
  (run (raising Py.Unprintable)
       [DoStart; DoWorker 0; DoWorker 0; DoWorker 0; DoWorker 0; DoWorker 0;
        DoStatus] (init unit)).2 =
  {| _status := {| running := true; state := "running"; detail := "started" |};
     _thread := Some 0; _stop_event := false;
     threads := [Dead (HandlerFailed Py.Unprintable
                                     (Py.ValueError "no repr"))] |}.
Proof. reflexivity. Qed.

Example repr_contains_boom :
  Py.contains "boom" (Py.repr_builtin "ValueError" ["boom"]) = true.
Proof. reflexivity. Qed.

(** ** Schedules *)

Section Schedules.

Context {B : Type} (run_bot : TaskBody B).

Lemma run_app (s1 s2 : list Action) (w : World B) :
  run run_bot (s1 ++ s2) w =
  ((run run_bot s1 w).1 ++ (run run_bot s2 (run run_bot s1 w).2).1,
   (run run_bot s2 (run run_bot s1 w).2).2).
Proof.
  revert w. induction s1 as [|a s1 IH]; intros w; simpl.
  - by destruct (run run_bot s2 w).
  - destruct (exec run_bot a w) as [o w1]. rewrite IH.
    by destruct (run run_bot s1 w1).
Qed.

Lemma run_snoc (sch : list Action) (a : Action) (w : World B) :
  run run_bot (sch ++ [a]) w =
  ((run run_bot sch w).1 ++ [(exec run_bot a (run run_bot sch w).2).1],
   (exec run_bot a (run run_bot sch w).2).2).
Proof.
  rewrite run_app. simpl.
  by destruct (exec run_bot a (run run_bot sch w).2).
Qed.

Lemma run_cons (a : Action) (sch : list Action) (w : World B) :
  run run_bot (a :: sch) w =
  ((exec run_bot a w).1 :: (run run_bot sch (exec run_bot a w).2).1,
   (run run_bot sch (exec run_bot a w).2).2).
Proof.
  simpl. destruct (exec run_bot a w) as [o w1]. simpl.
  by destruct (run run_bot sch w1).
Qed.

Lemma returned_app (os1 os2 : list Obs) :
  returned (os1 ++ os2) = returned os1 ++ returned os2.
Proof.
  induction os1 as [|o os1 IH]; simpl; [done|].
  destruct o; simpl; by rewrite ?IH.
Qed.

Lemma worker_log_app (t : nat) (os1 os2 : list Obs) :
  worker_log t (os1 ++ os2) = worker_log t os1 ++ worker_log t os2.
Proof.
  induction os1 as [|o os1 IH]; simpl; [done|].
  destruct o as [| t' d |]; simpl; rewrite ?IH; try done.
  by destruct (Nat.eqb t t').
Qed.

(** *** What the operations leave alone *)

Lemma start_alive (w : World B) :
  thread_alive w = true ->
  start w = (Build_BotStatus true "running" "already running",
             set_status (Build_BotStatus true "running" "already running") w).
Proof. intros H. unfold start. by rewrite H. Qed.

Lemma start_not_alive (w : World B) :
  thread_alive w = false ->
  start w = (Build_BotStatus true "starting" "launching thread",
             Build_World (Build_BotStatus true "starting" "launching thread")
                         (Some (length (threads w))) false
                         (threads w ++ [AtEnter])).
Proof. intros H. unfold start. by rewrite H. Qed.

Lemma stop_alive (w : World B) :
  thread_alive w = true ->
  stop w = (Build_BotStatus true "stopping" "stop requested",
            Build_World (Build_BotStatus true "stopping" "stop requested")
                        (_thread w) true (threads w)).
Proof. intros H. unfold stop. by rewrite H. Qed.

Lemma stop_not_alive (w : World B) :
  thread_alive w = false ->
  stop w = (Build_BotStatus false "stopped" "already stopped",
            set_status (Build_BotStatus false "stopped" "already stopped") w).
Proof. intros H. unfold stop. by rewrite H. Qed.

Lemma pc_step_alive (is_set : bool) (pc : Pc B) :
  is_alive pc = true -> is_Some (pc_step run_bot is_set pc).
Proof.
  destruct pc; simpl; try done; eauto.
  - destruct (body_step run_bot is_set b); eauto.
  - destruct (Py.repr e); eauto.
Qed.

Lemma pc_step_was_alive (is_set : bool) (pc pc' : Pc B) (d : Did) :
  pc_step run_bot is_set pc = Some (d, pc') -> is_alive pc = true.
Proof. by destruct pc. Qed.

(** The step of the handler, by what [repr(e)] does. *)
Lemma pc_step_except (is_set : bool) (e : Py.Exc) (d : Did) (pc' : Pc B) :
  pc_step run_bot is_set (AtExcept e) = Some (d, pc') ->
  (exists text,
     Py.repr e = Py.Shows text /\
     d = SetStatus (Build_BotStatus false "crashed" text) /\
     pc' = AtExit (Crashed e)) \/
  (exists e',
     Py.repr e = Py.Fails e' /\ d = HandlerRaised e' /\
     pc' = AtExit (HandlerFailed e e')).
Proof.
  simpl. destruct (Py.repr e) as [text|e'] eqn:Hr; intros [= <- <-].
  - left. by exists text.
  - right. by exists e'.
Qed.

Lemma thread_step_inv (t : nat) (w w' : World B) (d : Did) :
  thread_step run_bot t w = Some (d, w') ->
  exists pc pc',
    threads w !! t = Some pc /\
    pc_step run_bot (_stop_event w) pc = Some (d, pc') /\
    w' = Build_World (apply_did d (_status w)) (_thread w) (_stop_event w)
                     (<[t := pc']> (threads w)).
Proof.
  unfold thread_step. intros H.
  destruct (threads w !! t) as [pc|] eqn:Hpc; [|done].
  destruct (pc_step run_bot (_stop_event w) pc) as [[d' pc']|] eqn:Hs; [|done].
  inversion H; subst. eauto.
Qed.

(** The thread table only grows, and an action changes at most the entry
    of the thread that steps. *)
Lemma exec_length (a : Action) (w : World B) :
  length (threads w) <= length (threads (exec run_bot a w).2).
Proof.
  destruct a as [| | |t]; simpl.
  - done.
  - unfold start. destruct (thread_alive w); simpl; [done|].
    rewrite length_app. simpl. lia.
  - unfold stop. by destruct (thread_alive w).
  - destruct (thread_step run_bot t w) as [[d w']|] eqn:H; simpl; [|done].
    apply thread_step_inv in H as (pc & pc' & _ & _ & ->). simpl.
    by rewrite length_insert.
Qed.

Lemma exec_other (a : Action) (w : World B) (t : nat) (pc : Pc B) :
  a <> DoWorker t ->
  threads w !! t = Some pc ->
  threads (exec run_bot a w).2 !! t = Some pc.
Proof.
  intros Ha Hpc. destruct a as [| | |t']; simpl.
  - done.
  - unfold start. destruct (thread_alive w); simpl; [done|].
    by apply lookup_app_l_Some.
  - unfold stop. by destruct (thread_alive w).
  - destruct (thread_step run_bot t' w) as [[d w']|] eqn:H; simpl; [|done].
    apply thread_step_inv in H as (pc1 & pc' & _ & _ & ->). simpl.
    rewrite list_lookup_insert_ne; [done|]. congruence.
Qed.

Lemma exec_dead (a : Action) (w : World B) (t : nat) (o : Outcome) :
  threads w !! t = Some (Dead o) ->
  threads (exec run_bot a w).2 !! t = Some (Dead o).
Proof.
  intros Hpc. destruct (decide (a = DoWorker t)) as [->|Hne].
  - simpl. unfold thread_step. rewrite Hpc. by simpl.
  - by apply exec_other.
Qed.

End Schedules.

(** ** At most one live worker *)

Section SingleWorker.

Context {B : Type} (run_bot : TaskBody B).

Lemma sole_owner_init : sole_owner (init B).
Proof. intros t pc H. done. Qed.

Lemma owns_alive (w : World B) (t : nat) (pc : Pc B) :
  owns t w -> threads w !! t = Some pc -> is_alive pc = true ->
  thread_alive w = true.
Proof.
  intros Hw Hpc Ha. unfold thread_alive.
  rewrite (Hw pc Hpc Ha). by rewrite Hpc.
Qed.

Lemma owns_exec (a : Action) (w : World B) (t : nat) :
  owns t w -> owns t (exec run_bot a w).2.
Proof.
  intros Hw. destruct a as [| | |t']; simpl.
  - done.
  - destruct (thread_alive w) eqn:Hal.
    + rewrite start_alive by done. exact Hw.
    + rewrite start_not_alive by done. intros pc Hpc Ha. simpl in *.
      apply lookup_app_Some in Hpc as [Hpc|[Hlen Hpc]].
      * pose proof (owns_alive w t pc Hw Hpc Ha). congruence.
      * f_equal. apply lookup_lt_Some in Hpc. simpl in Hpc. lia.
  - destruct (thread_alive w) eqn:Hal.
    + rewrite stop_alive by done. exact Hw.
    + rewrite stop_not_alive by done. exact Hw.
  - destruct (thread_step run_bot t' w) as [[d w']|] eqn:H; simpl; [|done].
    apply thread_step_inv in H as (pc1 & pc' & Hpc1 & Hs & ->).
    intros pc Hpc Ha. simpl in *.
    destruct (decide (t' = t)) as [->|Hne].
    + apply (Hw pc1 Hpc1). by eapply pc_step_was_alive.
    + rewrite list_lookup_insert_ne in Hpc by done. by apply (Hw pc).
Qed.

Lemma owns_run (sch : list Action) (w : World B) (t : nat) :
  owns t w -> owns t (run run_bot sch w).2.
Proof.
  revert w. induction sch as [|a sch IH]; intros w Hw; [done|].
  rewrite run_cons. simpl. apply IH. by apply owns_exec.
Qed.

Lemma sole_owner_run (sch : list Action) (w : World B) :
  sole_owner w -> sole_owner (run run_bot sch w).2.
Proof. intros Hw t. by apply owns_run. Qed.

Lemma run_length (sch : list Action) (w : World B) :
  length (threads w) <= length (threads (run run_bot sch w).2).
Proof.
  revert w. induction sch as [|a sch IH]; intros w; [done|].
  rewrite run_cons. simpl. etrans; [apply (exec_length run_bot a)|apply IH].
Qed.

Lemma live_none (l : list (Pc B)) :
  (forall t pc, l !! t = Some pc -> is_alive pc = false) -> live l = 0.
Proof.
  induction l as [|pc l IH]; intros H; simpl; [done|].
  rewrite (H 0 pc) by done. rewrite IH; [done|].
  intros t pc' Hpc'. by apply (H (S t)).
Qed.

Lemma live_at_most_one (l : list (Pc B)) :
  (forall i j pi pj, l !! i = Some pi -> l !! j = Some pj ->
     is_alive pi = true -> is_alive pj = true -> i = j) ->
  live l <= 1.
Proof.
  induction l as [|pc l IH]; intros H; simpl; [lia|].
  destruct (is_alive pc) eqn:Ha.
  - rewrite live_none; [lia|].
    intros t pc' Hpc'. destruct (is_alive pc') eqn:Ha'; [|done].
    by specialize (H 0 (S t) pc pc' eq_refl Hpc' Ha Ha').
  - simpl. apply IH. intros i j pi pj Hi Hj Hai Haj.
    by specialize (H (S i) (S j) pi pj Hi Hj Hai Haj) as [= ->].
Qed.

Lemma sole_owner_live (w : World B) :
  sole_owner w -> live (threads w) <= 1.
Proof.
  intros Hw. apply live_at_most_one. intros i j pi pj Hi Hj Hai Haj.
  pose proof (Hw i pi Hi Hai). pose proof (Hw j pj Hj Haj). congruence.
Qed.

(** C2: a [start()] made while the worker is alive leaves the thread table,
    the handle and the event as they are and stores and returns
    [BotStatus(True, "running", "already running")]; and whatever the
    callers and the threads do, in whatever order, at most one thread of
    the table is alive. *)
Theorem C2_start_while_alive :
  (forall w : World B,
     thread_alive w = true ->
     start w =
     (Build_BotStatus true "running" "already running",
      Build_World (Build_BotStatus true "running" "already running")
                  (_thread w) (_stop_event w) (threads w))) /\
  (forall sch : list Action,
     live (threads (run run_bot sch (init B)).2) <= 1).
Proof.
  split.
  - intros w H. by rewrite start_alive.
  - intros sch. apply sole_owner_live, sole_owner_run, sole_owner_init.
Qed.

(** C4: a [stop()] made while no worker is alive stores and returns
    [BotStatus(False, "stopped", "already stopped")] and changes nothing
    else: the event, the handle and the threads are as before. *)
Theorem C4_stop_without_worker (w : World B) :
  thread_alive w = false ->
  stop w =
  (Build_BotStatus false "stopped" "already stopped",
   Build_World (Build_BotStatus false "stopped" "already stopped")
               (_thread w) (_stop_event w) (threads w)).
Proof. intros H. by rewrite stop_not_alive. Qed.

(** C5: a [stop()] made while the worker is alive stores and returns
    [BotStatus(True, "stopping", "stop requested")] and sets the event; the
    handle and the threads are as before (no thread has made a step). *)
Theorem C5_stop_with_worker (w : World B) :
  thread_alive w = true ->
  stop w =
  (Build_BotStatus true "stopping" "stop requested",
   Build_World (Build_BotStatus true "stopping" "stop requested")
               (_thread w) true (threads w)).
Proof. intros H. by rewrite stop_alive. Qed.

(** C8: [status()] returns the stored status and the runtime is exactly
    what it was: status, handle, event and threads. *)
Theorem C8_status_snapshot (w : World B) :
  status w = (_status w, w) /\
  exec run_bot DoStatus w = (Ret DoStatus (_status w), w).
Proof. done. Qed.

(** C3, as the code has it: a [start()] made while no worker is alive
    clears the event, stores and returns
    [BotStatus(True, "starting", "launching thread")], appends exactly one
    thread to the table, not yet run, and makes it the handle.  And if the
    worker of a first such [start()] is no longer alive when, after a
    [stop()] and whatever else happened, [start()] is called again, the two
    calls have created two different threads, each with the event cleared
    as it starts, and the first is dead when the second begins. *)
Theorem C3_start_without_worker :
  (forall w : World B,
     thread_alive w = false ->
     start w =
     (Build_BotStatus true "starting" "launching thread",
      Build_World (Build_BotStatus true "starting" "launching thread")
                  (Some (length (threads w))) false
                  (threads w ++ [AtEnter]))) /\
  (forall (w0 : World B) (sch1 sch2 : list Action),
     thread_alive w0 = false ->
     let w1 := (start w0).2 in
     let w2 := (run run_bot sch1 w1).2 in
     let w3 := (stop w2).2 in
     let w4 := (run run_bot sch2 w3).2 in
     thread_alive w4 = false ->
     let w5 := (start w4).2 in
     exists (t1 t2 : nat) (o : Outcome),
       _thread w1 = Some t1 /\ threads w1 !! t1 = Some AtEnter /\
       _stop_event w1 = false /\
       _thread w5 = Some t2 /\ threads w5 !! t2 = Some AtEnter /\
       _stop_event w5 = false /\
       t1 < t2 /\ threads w5 !! t1 = Some (Dead o)).
Proof.
  split; [intros w H; by rewrite start_not_alive|].
  intros w0 sch1 sch2 H0 w1 w2 w3 w4 H4 w5.
  assert (Hw4 : w4 = (run run_bot (sch1 ++ DoStop :: sch2) w1).2).
  { rewrite run_app, run_cons. simpl. subst w4 w3 w2.
    by destruct (stop (run run_bot sch1 w1).2). }
  subst w5. rewrite (start_not_alive w4 H4). simpl.
  subst w1. rewrite (start_not_alive w0 H0) in *. simpl in *.
  set (w1 := Build_World _ _ _ _) in *.
  set (t1 := length (threads w0)).
  assert (H1 : threads w1 !! t1 = Some AtEnter).
  { simpl. by rewrite lookup_app_r, Nat.sub_diag. }
  assert (Hown : owns t1 w4).
  { rewrite Hw4. apply owns_run. intros pc _ _. done. }
  assert (Hlen : S t1 <= length (threads w4)).
  { rewrite Hw4. etrans; [|apply run_length]. simpl.
    rewrite length_app. simpl. unfold t1. lia. }
  destruct (lookup_lt_is_Some_2 (threads w4) t1 Hlen) as [pc Hpc].
  destruct pc as [| |b| |e|o|o];
    try (pose proof (owns_alive w4 t1 _ Hown Hpc eq_refl); congruence).
  exists t1, (length (threads w4)), o.
  repeat split; try done.
  - by rewrite lookup_app_r, Nat.sub_diag.
  - by apply lookup_app_l_Some.
Qed.

End SingleWorker.

(** ** The status invariant *)

Section StatusInvariant.

Context {B : Type} (run_bot : TaskBody B).

Lemma repr_builtin_nonempty (cls : string) (args : list string) :
  Py.repr_builtin cls args <> EmptyString.
Proof. unfold Py.repr_builtin. by destruct cls. Qed.

Lemma caused_by_mono (os os' : list Obs) (s : BotStatus) :
  caused_by os s -> caused_by (os ++ os') s.
Proof.
  intros (t & e & text & Hin & He & Hr & Hd & Hset). exists t, e, text.
  repeat split; try done; apply elem_of_app; by left.
Qed.

Lemma status_ok_mono (os os' : list Obs) (s : BotStatus) :
  status_ok os s -> status_ok (os ++ os') s.
Proof.
  intros [Hr Hc]. split; [done|]. intros Hs.
  destruct (Hc Hs) as (? & ?). eauto using caused_by_mono.
Qed.

(** A status that is not [crashed] is judged by its first two fields. *)
Lemma status_ok_plain (os : list Obs) (r : bool) (st d : string) :
  st <> "crashed" ->
  (r = true <-> st = "starting" \/ st = "running" \/ st = "stopping") ->
  status_ok os (Build_BotStatus r st d).
Proof. intros Hne Hr. split; simpl; [done|]. intros ?. done. Qed.

Lemma run_inv_init : run_inv [] (init B).
Proof.
  split; [|split].
  - apply status_ok_plain; [done|]. simpl. split; [done|]. intros [?|[?|?]]; done.
  - constructor.
  - intros t e H. done.
Qed.

Ltac status_cases :=
  first
    [ apply status_ok_plain; [ done | split; [ intros _; auto | done ] ]
    | apply status_ok_plain; [ done | split; [ done | intros [?|[?|?]]; done ] ] ].

Lemma run_inv_exec (a : Action) (os : list Obs) (w : World B) :
  run_inv os w ->
  run_inv (os ++ [(exec run_bot a w).1]) (exec run_bot a w).2.
Proof.
  intros (Hst & Hret & Hex).
  assert (Hret' : forall o, Forall (status_ok (os ++ [o])) (returned os)).
  { intros o. eapply Forall_impl; [exact Hret|]. intros s. apply status_ok_mono. }
  assert (Hex' : forall o t e, threads w !! t = Some (AtExcept e) ->
            Work t (Raised e) ∈ os ++ [o] /\ Py.exc_is_Exception e = true).
  { intros o t e H. destruct (Hex t e H). split; [|done]. apply elem_of_app; by left. }
  destruct a as [| | |t']; simpl.
  - split; [by apply status_ok_mono|]. split; [|by apply Hex'].
    rewrite returned_app. apply Forall_app. split; [apply Hret'|].
    simpl. constructor; [|constructor]. by apply status_ok_mono.
  - destruct (thread_alive w) eqn:Hal.
    + rewrite start_alive by done. simpl.
      assert (Hnew : forall os', status_ok os' (Build_BotStatus true "running" "already running")).
      { intros os'. status_cases. }
      split; [apply Hnew|]. split; [|by apply Hex'].
      rewrite returned_app. apply Forall_app. split; [apply Hret'|].
      simpl. constructor; [apply Hnew|constructor].
    + rewrite start_not_alive by done. simpl.
      assert (Hnew : forall os', status_ok os' (Build_BotStatus true "starting" "launching thread")).
      { intros os'. status_cases. }
      split; [apply Hnew|]. split.
      * rewrite returned_app. apply Forall_app. split; [apply Hret'|].
        simpl. constructor; [apply Hnew|constructor].
      * intros t e H. apply lookup_app_Some in H as [H|[_ H]]; [by apply Hex'|].
        apply list_lookup_singleton_Some in H as [_ ?]. done.
  - destruct (thread_alive w) eqn:Hal.
    + rewrite stop_alive by done. simpl.
      assert (Hnew : forall os', status_ok os' (Build_BotStatus true "stopping" "stop requested")).
      { intros os'. status_cases. }
      split; [apply Hnew|]. split; [|by apply Hex'].
      rewrite returned_app. apply Forall_app. split; [apply Hret'|].
      simpl. constructor; [apply Hnew|constructor].
    + rewrite stop_not_alive by done. simpl.
      assert (Hnew : forall os', status_ok os' (Build_BotStatus false "stopped" "already stopped")).
      { intros os'. status_cases. }
      split; [apply Hnew|]. split; [|by apply Hex'].
      rewrite returned_app. apply Forall_app. split; [apply Hret'|].
      simpl. constructor; [apply Hnew|constructor].
  - destruct (thread_step run_bot t' w) as [[d w']|] eqn:H; simpl.
    2:{ split; [by apply status_ok_mono|]. split; [|by apply Hex'].
        rewrite returned_app, app_nil_r. apply Hret'. }
    apply thread_step_inv in H as (pc & pc' & Hpc & Hs & ->). simpl.
    split; [|split].
    + destruct pc as [| |b| |e|o|o]; simpl in Hs.
      * inversion Hs; subst; simpl. status_cases.
      * inversion Hs; subst; simpl. by apply status_ok_mono.
      * destruct (body_step run_bot (_stop_event w) b);
          inversion Hs; subst; simpl; by apply status_ok_mono.
      * inversion Hs; subst; simpl. status_cases.
      * destruct (Hex t' e Hpc) as [Hin He].
        apply (pc_step_except run_bot (_stop_event w) e) in Hs
          as [(text & Hr & -> & ->)|(e' & Hr & -> & ->)]; simpl;
          [|by apply status_ok_mono].
        split; simpl; [split; [done|intros [?|[?|?]]; done]|].
        intros _. split; [done|].
        exists t', e, text. split; [apply elem_of_app; by left|].
        split; [done|]. split; [done|]. split; [done|].
        apply elem_of_app; right. by apply list_elem_of_singleton.
      * inversion Hs; subst; simpl. by apply status_ok_mono.
      * done.
    + rewrite returned_app, app_nil_r. apply Hret'.
    + intros t e H. simpl in H. destruct (decide (t' = t)) as [->|Hne].
      * rewrite list_lookup_insert_eq in H by (by eapply lookup_lt_Some).
        inversion H; subst pc'.
        destruct pc as [| |b| |e0|o|o]; simpl in Hs; try (by inversion Hs).
        -- destruct (body_step run_bot (_stop_event w) b) as [b'| |e0];
             try (by inversion Hs).
           destruct (Py.exc_is_Exception e0) eqn:He0; inversion Hs; subst.
           split; [|done].
           apply elem_of_app; right. by apply list_elem_of_singleton.
        -- by destruct (Py.repr e0).
      * rewrite list_lookup_insert_ne in H by done. by apply Hex'.
Qed.

Lemma run_inv_run (sch : list Action) :
  run_inv (run run_bot sch (init B)).1 (run run_bot sch (init B)).2.
Proof.
  induction sch as [|a sch IH] using rev_ind.
  - apply run_inv_init.
  - rewrite run_snoc. simpl. by apply run_inv_exec.
Qed.

(** C1, as the code has it: after any schedule, the stored status and
    every status a caller was handed satisfy: [running] is true exactly in
    the states [starting], [running], [stopping]; and in state [crashed],
    [running] is false and [detail] is the string that [repr(e)] returned
    for an [Exception] [e] that the task body raised and whose worker
    stored that status.  That string is not empty when the exception keeps
    the built-in [__repr__]. *)
Theorem C1_status_invariant (sch : list Action) :
  Forall (status_ok (run run_bot sch (init B)).1)
         (_status (run run_bot sch (init B)).2 ::
          returned (run run_bot sch (init B)).1) /\
  (forall cls args ex,
     exists text,
       Py.repr (Py.builtin cls args ex) = Py.Shows text /\
       text <> EmptyString).
Proof.
  split.
  - destruct (run_inv_run sch) as (Hst & Hret & _). by constructor.
  - intros cls args ex. exists (Py.repr_builtin cls args).
    split; [done|apply repr_builtin_nonempty].
Qed.

End StatusInvariant.

(** ** The run of a worker *)

Section WorkerRun.

Context {B : Type} (run_bot : TaskBody B).

Lemma exec_worker (w : World B) (t : nat) (pc pc' : Pc B) (d : Did) :
  threads w !! t = Some pc ->
  pc_step run_bot (_stop_event w) pc = Some (d, pc') ->
  exec run_bot (DoWorker t) w =
  (Work t d,
   Build_World (apply_did d (_status w)) (_thread w) (_stop_event w)
               (<[t := pc']> (threads w))).
Proof. intros Hpc Hs. simpl. unfold thread_step. by rewrite Hpc, Hs. Qed.

Lemma worker_log_other (t : nat) (a : Action) (w : World B) :
  a <> DoWorker t -> worker_log t [(exec run_bot a w).1] = [].
Proof.
  intros Ha. destruct a as [| | |t']; simpl.
  - done.
  - by destruct (start w).
  - by destruct (stop w).
  - destruct (thread_step run_bot t' w) as [[d w']|]; simpl; [|done].
    destruct (Nat.eqb_spec t t') as [->|]; done.
Qed.

Lemma exec_fresh (a : Action) (w : World B) (t : nat) (pc : Pc B) :
  threads w !! t = None ->
  threads (exec run_bot a w).2 !! t = Some pc ->
  pc = AtEnter /\ a <> DoWorker t.
Proof.
  intros Hn Hpc. destruct a as [| | |t']; simpl in Hpc.
  - congruence.
  - unfold start in Hpc. destruct (thread_alive w); simpl in Hpc; [congruence|].
    apply lookup_app_Some in Hpc as [Hpc|[_ Hpc]]; [congruence|].
    apply list_lookup_singleton_Some in Hpc as [_ <-]. done.
  - unfold stop in Hpc. destruct (thread_alive w); simpl in Hpc; congruence.
  - destruct (thread_step run_bot t' w) as [[d w']|] eqn:H; simpl in Hpc;
      [|congruence].
    apply thread_step_inv in H as (pc1 & pc' & Hpc1 & Hs & ->). simpl in Hpc.
    destruct (decide (t' = t)) as [->|Hne]; [congruence|].
    rewrite list_lookup_insert_ne in Hpc by done. congruence.
Qed.

Lemma body_after_snoc (flags : list bool) (b0 b : B) (f : bool) :
  body_after run_bot flags b0 = Some (Continue b) ->
  body_after run_bot (flags ++ [f]) b0 = Some (body_step run_bot f b).
Proof.
  revert b0. induction flags as [|g flags IH]; intros b0; simpl.
  - intros [= ->]. by destruct (body_step run_bot f b).
  - destruct (body_step run_bot g b0) as [b1| |e]; [apply IH| |];
      by destruct flags.
Qed.

Lemma length_snoc (flags : list bool) (f : bool) :
  length (flags ++ [f]) = S (length flags).
Proof. rewrite length_app. simpl. lia. Qed.

Lemma log_shape_step (is_set : bool) (pc pc' : Pc B) (d : Did) (log : list Did) :
  pc_step run_bot is_set pc = Some (d, pc') ->
  log_shape run_bot pc log -> log_shape run_bot pc' (log ++ [d]).
Proof.
  intros Hs Hl. destruct pc as [| |b| |e|o|o].
  - simpl in Hs. inversion Hs; subst. simpl in *. by subst.
  - simpl in Hs. inversion Hs; subst. simpl in *. subst. by exists [].
  - destruct Hl as (flags & -> & Hb & _). simpl in Hs, Hb.
    pose proof (body_after_snoc flags _ b is_set Hb) as Hb'.
    destruct (body_step run_bot is_set b) as [b'| |e]; inversion Hs; subst.
    + exists (flags ++ [is_set]). simpl. rewrite length_snoc.
      split; [|done]. rewrite !app_nil_r. do 2 f_equal.
      simpl. by rewrite replicate_cons_app.
    + exists (flags ++ [is_set]). simpl. rewrite length_snoc. simpl.
      split; [|done]. by rewrite app_nil_r.
    + destruct (Py.exc_is_Exception e) eqn:He;
        exists (flags ++ [is_set]); simpl; rewrite length_snoc; simpl;
        (split; [|done]); by rewrite app_nil_r.
  - destruct Hl as (flags & -> & Hb & _). simpl in Hs. inversion Hs; subst.
    exists flags. simpl. split; [|done]. by rewrite <- !app_assoc.
  - destruct Hl as (flags & -> & Hb & He).
    apply pc_step_except in Hs
      as [(text & Hr & -> & ->)|(e' & Hr & -> & ->)];
      exists flags; simpl in *; unfold handler_log; rewrite Hr;
      (split; [by rewrite <- !app_assoc|]); (split; [done|]);
      (split; [done|]); eauto.
  - destruct Hl as (flags & -> & Hb & Ho). simpl in Hs. inversion Hs; subst.
    exists flags. simpl. split; [|done]. by rewrite <- !app_assoc.
  - done.
Qed.

Lemma logs_ok_exec (a : Action) (os : list Obs) (w : World B) :
  logs_ok run_bot os w ->
  logs_ok run_bot (os ++ [(exec run_bot a w).1]) (exec run_bot a w).2.
Proof.
  intros Hw t. specialize (Hw t). rewrite worker_log_app.
  destruct (decide (a = DoWorker t)) as [->|Hne].
  - destruct (threads w !! t) as [pc|] eqn:Hpc.
    + destruct (pc_step run_bot (_stop_event w) pc) as [[d pc']|] eqn:Hs.
      * rewrite (exec_worker w t pc pc' d Hpc Hs). simpl.
        rewrite Nat.eqb_refl.
        rewrite list_lookup_insert_eq by (by eapply lookup_lt_Some).
        by eapply log_shape_step.
      * simpl. unfold thread_step. rewrite Hpc, Hs. simpl.
        by rewrite Hpc, app_nil_r.
    + simpl. unfold thread_step. rewrite Hpc. simpl. by rewrite Hpc, app_nil_r.
  - rewrite worker_log_other, app_nil_r by done.
    destruct (threads w !! t) as [pc|] eqn:Hpc.
    + by rewrite (exec_other run_bot a w t pc Hne Hpc).
    + destruct (threads (exec run_bot a w).2 !! t) as [pc|] eqn:Hpc'; [|done].
      destruct (exec_fresh a w t pc Hpc Hpc') as [-> _]. done.
Qed.

Lemma logs_ok_run (sch : list Action) :
  logs_ok run_bot (run run_bot sch (init B)).1 (run run_bot sch (init B)).2.
Proof.
  induction sch as [|a sch IH] using rev_ind.
  - intros t. done.
  - rewrite run_snoc. simpl. by apply logs_ok_exec.
Qed.

Lemma calls_app (l1 l2 : list Did) : calls (l1 ++ l2) = calls l1 + calls l2.
Proof.
  induction l1 as [|d l1 IH]; simpl; [done|]. destruct d; simpl; lia.
Qed.

Lemma calls_polled (n : nat) : calls (replicate n Polled) = 0.
Proof. induction n; simpl; done. Qed.

Lemma calls_outcome (o : Outcome) : calls (outcome_log o) = 0.
Proof.
  destruct o as [|e|e|e e']; simpl; try done;
    unfold handler_log; by destruct (Py.repr e).
Qed.

Lemma calls_tail (pc : Pc B) : calls (log_tail pc) = 0.
Proof.
  destruct pc as [| |b| |e|o|o]; simpl; try done.
  - apply calls_outcome.
  - by rewrite calls_app, calls_outcome.
Qed.

Lemma log_shape_calls (pc : Pc B) (log : list Did) :
  log_shape run_bot pc log -> calls log = if entered pc then 1 else 0.
Proof.
  destruct pc as [| |b| |e|o|o]; simpl; try (by intros ->);
    intros (flags & -> & _); simpl;
    by rewrite calls_app, calls_polled, ?calls_app, ?calls_outcome.
Qed.

(** C6: a worker first stores [BotStatus(True, "running", "started")],
    then calls [_run_bot] from its start; every step inside it is one step
    of the body on the event of this runtime as it is then: the body goes
    on from where that step left it, or has returned, and once it has
    returned the worker stores [BotStatus(False, "stopped", "finished")].
    After any schedule the steps of every thread are, in order: that first
    status, one call of [_run_bot], the polls of one run of the body from
    its start, leaving the body where the thread has it, and the end its
    program counter tells; a normal end only if that run of the body
    returned. *)
Theorem C6_worker_run :
  (forall (w : World B) (t : nat),
     threads w !! t = Some AtEnter ->
     exec run_bot (DoWorker t) w =
     (Work t (SetStatus (Build_BotStatus true "running" "started")),
      Build_World (Build_BotStatus true "running" "started")
                  (_thread w) (_stop_event w) (<[t := AtCall]> (threads w)))) /\
  (forall (w : World B) (t : nat),
     threads w !! t = Some AtCall ->
     exec run_bot (DoWorker t) w =
     (Work t CallRunBot,
      Build_World (_status w) (_thread w) (_stop_event w)
                  (<[t := InBody (body_start run_bot)]> (threads w)))) /\
  (forall (w : World B) (t : nat) (b b' : B),
     threads w !! t = Some (InBody b) ->
     body_step run_bot (_stop_event w) b = Continue b' ->
     exec run_bot (DoWorker t) w =
     (Work t Polled,
      Build_World (_status w) (_thread w) (_stop_event w)
                  (<[t := InBody b']> (threads w)))) /\
  (forall (w : World B) (t : nat) (b : B),
     threads w !! t = Some (InBody b) ->
     body_step run_bot (_stop_event w) b = Return ->
     exec run_bot (DoWorker t) w =
     (Work t Returned,
      Build_World (_status w) (_thread w) (_stop_event w)
                  (<[t := AtFinished]> (threads w)))) /\
  (forall (w : World B) (t : nat),
     threads w !! t = Some AtFinished ->
     exec run_bot (DoWorker t) w =
     (Work t (SetStatus (Build_BotStatus false "stopped" "finished")),
      Build_World (Build_BotStatus false "stopped" "finished")
                  (_thread w) (_stop_event w)
                  (<[t := AtExit Finished]> (threads w)))) /\
  (forall (sch : list Action) (t : nat) (pc : Pc B),
     threads (run run_bot sch (init B)).2 !! t = Some pc ->
     log_shape run_bot pc (worker_log t (run run_bot sch (init B)).1) /\
     calls (worker_log t (run run_bot sch (init B)).1) =
     (if entered pc then 1 else 0)).
Proof.
  split; [|split; [|split; [|split; [|split]]]].
  - intros w t H. by apply exec_worker with (pc := AtEnter).
  - intros w t H. by apply exec_worker with (pc := AtCall).
  - intros w t b b' H Hb. apply exec_worker with (pc := InBody b); [done|].
    simpl. by rewrite Hb.
  - intros w t b H Hb. apply exec_worker with (pc := InBody b); [done|].
    simpl. by rewrite Hb.
  - intros w t H. by apply exec_worker with (pc := AtFinished).
  - intros sch t pc H.
    pose proof (logs_ok_run sch t) as Hl. rewrite H in Hl.
    split; [done|]. by apply log_shape_calls.
Qed.

End WorkerRun.

(** ** Failures of the task body *)

Section Failures.

Context {B : Type} (run_bot : TaskBody B).

Lemma append_nil_l (s : string) : EmptyString +:+ s = s.
Proof. reflexivity. Qed.

Lemma append_cons (c : ascii) (s1 s2 : string) :
  String c s1 +:+ s2 = String c (s1 +:+ s2).
Proof. reflexivity. Qed.

Lemma append_assoc (a b c : string) : (a +:+ b) +:+ c = a +:+ b +:+ c.
Proof.
  induction a as [|x a IH]; [done|]. by rewrite !append_cons, IH.
Qed.

Lemma prefix_app (s post : string) : String.prefix s (s +:+ post) = true.
Proof.
  induction s as [|c s IH]; [by destruct post|].
  rewrite append_cons. simpl. destruct (ascii_dec c c); [done|congruence].
Qed.

Lemma contains_prefix (needle hay : string) :
  String.prefix needle hay = true -> Py.contains needle hay = true.
Proof. intros H. destruct hay; cbn [Py.contains]; by rewrite H. Qed.

Lemma contains_app (pre s post : string) :
  Py.contains s (pre +:+ s +:+ post) = true.
Proof.
  induction pre as [|c pre IH].
  - rewrite append_nil_l. apply contains_prefix, prefix_app.
  - rewrite append_cons. cbn [Py.contains]. rewrite IH. apply orb_true_r.
Qed.

Lemma escape_char_plain (q c : ascii) :
  q = Py.squote \/ q = Py.dquote ->
  Py.plain c = true -> Py.escape_char q c = String c EmptyString.
Proof.
  unfold Py.plain, Py.escape_char. intros Hq Hc.
  apply andb_prop in Hc as [Hc Hb]. apply andb_prop in Hc as [Hc Hd].
  apply andb_prop in Hc as [Hp Hs].
  apply negb_true_iff in Hb, Hd, Hs.
  assert (Ascii.eqb c q = false) as -> by (destruct Hq; by subst).
  rewrite Hb, Hp. cbn [orb].
  unfold Py.isprintable in Hp.
  destruct (Nat.eqb_spec (nat_of_ascii c) 9) as [E|_];
    [rewrite E in Hp; done|].
  destruct (Nat.eqb_spec (nat_of_ascii c) 10) as [E|_];
    [rewrite E in Hp; done|].
  destruct (Nat.eqb_spec (nat_of_ascii c) 13) as [E|_];
    [rewrite E in Hp; done|].
  done.
Qed.

Lemma escape_plain (q : ascii) (s : string) :
  q = Py.squote \/ q = Py.dquote ->
  Py.all_plain s = true -> Py.escape q s = s.
Proof.
  intros Hq. induction s as [|c s IH]; [done|].
  cbn [Py.all_plain Py.escape].
  intros H. apply andb_prop in H as [Hc Hs].
  by rewrite escape_char_plain, IH.
Qed.

Lemma quote_of_cases (s : string) :
  Py.quote_of s = Py.squote \/ Py.quote_of s = Py.dquote.
Proof. unfold Py.quote_of. destruct (_ && _); auto. Qed.

(** The built-in [repr] of an exception raised with one plain message
    shows the message. *)
Lemma repr_mentions (cls msg : string) :
  Py.all_plain msg = true ->
  Py.contains msg (Py.repr_builtin cls [msg]) = true.
Proof.
  intros Hp. unfold Py.repr_builtin. cbn [map Py.join].
  unfold Py.repr_str. cbv zeta.
  rewrite (escape_plain _ msg (quote_of_cases msg) Hp).
  set (q := Py.quote_of msg).
  replace (cls +:+ "(" +:+ String q (msg +:+ String q EmptyString) +:+ ")")
    with ((cls +:+ "(" +:+ String q EmptyString) +:+ msg +:+ String q ")").
  - apply contains_app.
  - rewrite !append_assoc. f_equal. rewrite !append_cons, append_nil_l.
    do 2 f_equal. by rewrite append_assoc, append_cons, append_nil_l.
Qed.

Lemma run_idle (sch : list Action) (w : World B) (t : nat) (pc : Pc B) :
  count_worker t sch = 0 ->
  threads w !! t = Some pc ->
  threads (run run_bot sch w).2 !! t = Some pc.
Proof.
  revert w. induction sch as [|a sch IH]; intros w Hc Hpc; [done|].
  rewrite run_cons. simpl. apply IH.
  - destruct a as [| | |t']; simpl in Hc; try done.
    by destruct (Nat.eqb t t').
  - apply exec_other; [|done]. intros ->. simpl in Hc.
    by rewrite Nat.eqb_refl in Hc.
Qed.

Lemma crashed_only_by_handler (a : Action) (w : World B) :
  state (_status (exec run_bot a w).2) = "crashed" ->
  _status (exec run_bot a w).2 = _status w \/
  exists t e text,
    a = DoWorker t /\ threads w !! t = Some (AtExcept e) /\
    Py.repr e = Py.Shows text /\
    (exec run_bot a w).1 =
      Work t (SetStatus (Build_BotStatus false "crashed" text)) /\
    _status (exec run_bot a w).2 = Build_BotStatus false "crashed" text.
Proof.
  destruct a as [| | |t]; simpl.
  - auto.
  - unfold start. destruct (thread_alive w); simpl; done.
  - unfold stop. destruct (thread_alive w); simpl; done.
  - destruct (thread_step run_bot t w) as [[d w']|] eqn:H; simpl; [|auto].
    apply thread_step_inv in H as (pc & pc' & Hpc & Hs & ->). simpl.
    destruct pc as [| |b| |e|o|o].
    + simpl in Hs. inversion Hs; subst; simpl. done.
    + simpl in Hs. inversion Hs; subst; simpl. auto.
    + simpl in Hs. destruct (body_step run_bot (_stop_event w) b);
        inversion Hs; subst; simpl; auto.
    + simpl in Hs. inversion Hs; subst; simpl. done.
    + apply pc_step_except in Hs
        as [(text & Hr & -> & ->)|(e' & Hr & -> & ->)]; simpl; [|auto].
      intros _. right. by exists t, e, text.
    + simpl in Hs. inversion Hs; subst; simpl. auto.
    + done.
Qed.

(** What a caller is handed depends on the threads only through the
    liveness of the one [_thread] refers to. *)
Lemma calls_see_status_only (w w' : World B) :
  _status w = _status w' -> thread_alive w = thread_alive w' ->
  (status w).1 = (status w').1 /\
  (start w).1 = (start w').1 /\
  (stop w).1 = (stop w').1.
Proof.
  intros Hs Ha. unfold status, start, stop. rewrite Ha.
  split; [done|]. by destruct (thread_alive w').
Qed.

(** C7, as the code has it: when the task body raises an [Exception] [e],
    the worker catches it, nothing that happens before its next step moves
    it out of the handler, and if [repr(e)] returns, that step stores
    [BotStatus(False, "crashed", repr(e))] (for [ValueError("boom")], and
    for any exception with the built-in [repr] raised with one plain
    message, the detail shows the message).  When the body raises something
    that is not an [Exception], or when [repr(e)] raises, the worker ends
    and stores nothing.  What [status], [start] and [stop] hand back
    depends on the threads only through the liveness of the current one,
    and a step that leaves the state [crashed] stored either did not change
    the status or is that storing step of the handler. *)
Theorem C7_task_failure :
  (forall (w : World B) (t : nat) (b : B) (e : Py.Exc),
     threads w !! t = Some (InBody b) ->
     body_step run_bot (_stop_event w) b = Raise e ->
     Py.exc_is_Exception e = true ->
     exec run_bot (DoWorker t) w =
     (Work t (Raised e),
      Build_World (_status w) (_thread w) (_stop_event w)
                  (<[t := AtExcept e]> (threads w)))) /\
  (forall (w : World B) (t : nat) (b : B) (e : Py.Exc),
     threads w !! t = Some (InBody b) ->
     body_step run_bot (_stop_event w) b = Raise e ->
     Py.exc_is_Exception e = false ->
     exec run_bot (DoWorker t) w =
     (Work t (Raised e),
      Build_World (_status w) (_thread w) (_stop_event w)
                  (<[t := AtExit (Escaped e)]> (threads w)))) /\
  (forall (w : World B) (t : nat) (e : Py.Exc) (text : string)
          (sch : list Action),
     threads w !! t = Some (AtExcept e) ->
     Py.repr e = Py.Shows text ->
     count_worker t sch = 0 ->
     let w' := (run run_bot sch w).2 in
     threads w' !! t = Some (AtExcept e) /\
     exec run_bot (DoWorker t) w' =
     (Work t (SetStatus (Build_BotStatus false "crashed" text)),
      Build_World (Build_BotStatus false "crashed" text)
                  (_thread w') (_stop_event w')
                  (<[t := AtExit (Crashed e)]> (threads w')))) /\
  (forall (w : World B) (t : nat) (e e' : Py.Exc),
     threads w !! t = Some (AtExcept e) ->
     Py.repr e = Py.Fails e' ->
     exec run_bot (DoWorker t) w =
     (Work t (HandlerRaised e'),
      Build_World (_status w) (_thread w) (_stop_event w)
                  (<[t := AtExit (HandlerFailed e e')]> (threads w)))) /\
  (Py.repr (Py.ValueError "boom") = Py.Shows "ValueError('boom')" /\
   forall cls msg ex,
     Py.all_plain msg = true ->
     exists text,
       Py.repr (Py.builtin cls [msg] ex) = Py.Shows text /\
       Py.contains msg text = true) /\
  (forall w w' : World B,
     _status w = _status w' -> thread_alive w = thread_alive w' ->
     (status w).1 = (status w').1 /\
     (start w).1 = (start w').1 /\
     (stop w).1 = (stop w').1) /\
  (forall (a : Action) (w : World B),
     state (_status (exec run_bot a w).2) = "crashed" ->
     _status (exec run_bot a w).2 = _status w \/
     exists t e text,
       a = DoWorker t /\ threads w !! t = Some (AtExcept e) /\
       Py.repr e = Py.Shows text /\
       (exec run_bot a w).1 =
         Work t (SetStatus (Build_BotStatus false "crashed" text)) /\
       _status (exec run_bot a w).2 =
         Build_BotStatus false "crashed" text).
Proof.
  split; [|split; [|split; [|split; [|split; [|split]]]]].
  - intros w t b e Hpc Hb He.
    apply exec_worker with (pc := InBody b); [done|]. simpl. by rewrite Hb, He.
  - intros w t b e Hpc Hb He.
    apply exec_worker with (pc := InBody b); [done|]. simpl. by rewrite Hb, He.
  - intros w t e text sch Hpc Hr Hc w'.
    assert (Hpc' : threads w' !! t = Some (AtExcept e)) by by apply run_idle.
    split; [done|]. apply exec_worker with (pc := AtExcept e); [done|].
    simpl. by rewrite Hr.
  - intros w t e e' Hpc Hr.
    rewrite (exec_worker run_bot w t (AtExcept e) (AtExit (HandlerFailed e e'))
               (HandlerRaised e') Hpc); [done|]. simpl. by rewrite Hr.
  - split; [done|]. intros cls msg ex Hp.
    exists (Py.repr_builtin cls [msg]). split; [done|]. by apply repr_mentions.
  - apply calls_see_status_only.
  - apply crashed_only_by_handler.
Qed.

End Failures.

(** ** Redundant calls *)

Section Redundant.

Context {B : Type} (run_bot : TaskBody B).

Lemma cancelled_alive (w : World B) (t : nat) (pc : Pc B) :
  cancelled t w -> threads w !! t = Some pc -> is_alive pc = true ->
  thread_alive w = true.
Proof.
  intros Hw Hpc Ha. unfold thread_alive.
  destruct (Hw pc Hpc Ha) as [-> _]. by rewrite Hpc.
Qed.

(** For a thread of the table, [cancelled] is kept by every action: while
    the thread is alive no [start()] clears the event. *)
Lemma cancelled_exec (a : Action) (w : World B) (t : nat) :
  is_Some (threads w !! t) ->
  cancelled t w -> cancelled t (exec run_bot a w).2.
Proof.
  intros Ht Hw. destruct a as [| | |t']; simpl.
  - done.
  - destruct (thread_alive w) eqn:Hal.
    + rewrite start_alive by done. exact Hw.
    + rewrite start_not_alive by done. intros pc Hpc Ha. simpl in *.
      apply lookup_app_Some in Hpc as [Hpc|[Hlen Hpc]].
      * pose proof (cancelled_alive w t pc Hw Hpc Ha). congruence.
      * apply lookup_lt_is_Some in Ht. lia.
  - destruct (thread_alive w) eqn:Hal.
    + rewrite stop_alive by done. intros pc Hpc Ha. simpl in *.
      by destruct (Hw pc Hpc Ha).
    + rewrite stop_not_alive by done. exact Hw.
  - destruct (thread_step run_bot t' w) as [[d w']|] eqn:H; simpl; [|done].
    apply thread_step_inv in H as (pc1 & pc' & Hpc1 & Hs & ->).
    intros pc Hpc Ha. simpl in *.
    destruct (decide (t' = t)) as [->|Hne].
    + apply (Hw pc1 Hpc1). by eapply pc_step_was_alive.
    + rewrite list_lookup_insert_ne in Hpc by done. by apply (Hw pc).
Qed.

Lemma run_dead (sch : list Action) (w : World B) (t : nat) (o : Outcome) :
  threads w !! t = Some (Dead o) ->
  threads (run run_bot sch w).2 !! t = Some (Dead o).
Proof.
  revert w. induction sch as [|a sch IH]; intros w H; [done|].
  rewrite run_cons. simpl. by apply IH, exec_dead.
Qed.

(** A worker whose event stays set dies once it has made as many steps as
    [dies_within] asks for, whatever the callers do in between. *)
Lemma cancelled_worker_dies (sch : list Action) (w : World B) (t n : nat)
    (pc : Pc B) :
  cancelled t w ->
  threads w !! t = Some pc ->
  dies_within run_bot true n pc = true ->
  n <= count_worker t sch ->
  exists o, threads (run run_bot sch w).2 !! t = Some (Dead o).
Proof.
  revert w n pc. induction sch as [|a sch IH]; intros w n pc Hw Hpc Hd Hn.
  - simpl in Hn. assert (n = 0) as -> by lia. simpl in Hd.
    destruct pc; try done. by exists o.
  - destruct (is_alive pc) eqn:Ha.
    2:{ destruct pc; try done. exists o. by apply run_dead. }
    rewrite run_cons. simpl.
    destruct (decide (a = DoWorker t)) as [->|Hne].
    + destruct (Hw pc Hpc Ha) as [_ Hset].
      destruct (pc_step_alive run_bot true pc Ha) as [[d pc'] Hs].
      assert (Hex := exec_worker run_bot w t pc pc' d Hpc).
      rewrite Hset in Hex. specialize (Hex Hs).
      simpl in Hn. rewrite Nat.eqb_refl in Hn.
      destruct n as [|n].
      { simpl in Hd. by rewrite Ha in Hd. }
      simpl in Hd. rewrite Ha, Hs in Hd. simpl in Hd.
      apply (IH _ n pc').
      * apply cancelled_exec; [by rewrite Hpc|done].
      * unfold exec in Hex. simpl. simpl in Hex. rewrite Hex. simpl.
        apply list_lookup_insert_eq. by eapply lookup_lt_Some.
      * done.
      * lia.
    + apply (IH _ n pc).
      * apply cancelled_exec; [by rewrite Hpc|done].
      * by apply exec_other.
      * done.
      * destruct a as [| | |t']; simpl in Hn; try done.
        destruct (Nat.eqb_spec t t') as [->|]; [done|lia].
Qed.

Lemma run_bot_dies_within (pc : Pc unit) :
  dies_within _run_bot true 5 pc = true.
Proof. destruct pc as [| |[]| |[]|o|o]; reflexivity. Qed.

End Redundant.

(** C9: a [start()] made while the worker is alive leaves the event, the
    handle and the threads as they are.  Made after a [stop()] of the same
    run, it finds the status [stopping] and the event set, leaves the event
    set, and stores and returns [BotStatus(True, "running", "already
    running")].  From there the worker dies once the scheduler has given
    it the steps it needs with the event set, whatever the callers do
    meanwhile; for the [_run_bot] of the source five steps are enough. *)
Theorem C9_noop_start_keeps_cancellation (B : Type) (run_bot : TaskBody B) :
  (forall w : World B,
     thread_alive w = true ->
     _stop_event (start w).2 = _stop_event w /\
     _thread (start w).2 = _thread w /\
     threads (start w).2 = threads w) /\
  (forall w : World B,
     thread_alive w = true ->
     let w1 := (stop w).2 in
     let w2 := (start w1).2 in
     _status w1 = Build_BotStatus true "stopping" "stop requested" /\
     _stop_event w1 = true /\
     (start w1).1 = Build_BotStatus true "running" "already running" /\
     _status w2 = Build_BotStatus true "running" "already running" /\
     _stop_event w2 = true /\
     _thread w2 = _thread w /\
     threads w2 = threads w) /\
  (forall (w : World B) (t n : nat) (pc : Pc B) (sch : list Action),
     _thread w = Some t ->
     threads w !! t = Some pc ->
     is_alive pc = true ->
     dies_within run_bot true n pc = true ->
     n <= count_worker t sch ->
     exists o,
       threads (run run_bot sch (start (stop w).2).2).2 !! t = Some (Dead o)) /\
  (forall (w : World unit) (t : nat) (pc : Pc unit) (sch : list Action),
     _thread w = Some t ->
     threads w !! t = Some pc ->
     is_alive pc = true ->
     5 <= count_worker t sch ->
     exists o,
       threads (run _run_bot sch (start (stop w).2).2).2 !! t = Some (Dead o)).
Proof.
  assert (Hal : forall (B' : Type) (w : World B') t pc,
            _thread w = Some t -> threads w !! t = Some pc ->
            is_alive pc = true -> thread_alive w = true).
  { intros B' w t pc Ht Hpc Ha. unfold thread_alive. by rewrite Ht, Hpc. }
  assert (Hstep : forall (B' : Type) (w : World B'),
            thread_alive w = true ->
            (start (stop w).2).2 =
            Build_World (Build_BotStatus true "running" "already running")
                        (_thread w) true (threads w)).
  { intros B' w H. rewrite (stop_alive w H). simpl.
    rewrite start_alive; [done|]. exact H. }
  assert (Hdie : forall (B' : Type) (rb : TaskBody B') (w : World B') t n pc sch,
            _thread w = Some t -> threads w !! t = Some pc ->
            is_alive pc = true -> dies_within rb true n pc = true ->
            n <= count_worker t sch ->
            exists o,
              threads (run rb sch (start (stop w).2).2).2 !! t = Some (Dead o)).
  { intros B' rb w t n pc sch Ht Hpc Ha Hd Hn.
    rewrite (Hstep B' w (Hal B' w t pc Ht Hpc Ha)).
    by apply cancelled_worker_dies with (n := n) (pc := pc). }
  split; [|split; [|split]].
  - intros w H. by rewrite start_alive.
  - intros w H w1 w2. subst w2 w1. rewrite (Hstep B w H).
    rewrite (stop_alive w H). simpl. rewrite start_alive; done.
  - intros w t n pc sch. apply Hdie.
  - intros w t pc sch Ht Hpc Ha Hn.
    apply Hdie with (n := 5) (pc := pc); try done. apply run_bot_dies_within.
Qed.

(** C10: a [stop()] made while no worker is alive replaces the stored
    status, a [crashed] one with its detail included, by
    [BotStatus(False, "stopped", "already stopped")], which is what a
    [status()] then returns; the runtime it leaves is the same whatever the
    status was before, so that nothing observed later, no return of
    [status()] in particular, depends on the crash. *)
Theorem C10_noop_stop_overwrites (B : Type) (run_bot : TaskBody B)
    (w : World B) (text : string) :
  thread_alive w = false ->
  _status w = Build_BotStatus false "crashed" text ->
  stop w =
  (Build_BotStatus false "stopped" "already stopped",
   Build_World (Build_BotStatus false "stopped" "already stopped")
               (_thread w) (_stop_event w) (threads w)) /\
  (status (stop w).2).1 = Build_BotStatus false "stopped" "already stopped" /\
  (forall (prev : BotStatus) (sch : list Action),
     run run_bot sch (stop (set_status prev w)).2 =
     run run_bot sch (stop w).2).
Proof.
  intros Hal Hst.
  assert (Hprev : forall prev, thread_alive (set_status prev w) = false) by done.
  split; [by rewrite stop_not_alive|]. split.
  - by rewrite stop_not_alive.
  - intros prev sch. by rewrite (stop_not_alive _ (Hprev prev)), stop_not_alive.
Qed.

(** ** The operations at sample runtimes *)

(** C2 at the runtime a first [start()] leaves. *)
Lemma C2_witness :
  thread_alive demo_started = true /\
  start demo_started =
  (Build_BotStatus true "running" "already running",
   Build_World (Build_BotStatus true "running" "already running")
               (Some 0) false [AtEnter]).
Proof.
  split; [reflexivity|].
  apply (proj1 (C2_start_while_alive _run_bot) demo_started). reflexivity.
Defined.

(** The claim C3 as the specification words it fails: the detail stored by
    [start()] is not ["launching"], and [start(); stop(); start()] called
    in a row leave one thread, not yet run, with the event set. *)
Lemma C3_counterexample :
  thread_alive (init unit) = false /\
  (start (init unit)).1 <> Build_BotStatus true "starting" "launching" /\
  threads (run _run_bot [DoStart; DoStop; DoStart] (init unit)).2 = [AtEnter] /\
  _stop_event (run _run_bot [DoStart; DoStop; DoStart] (init unit)).2 = true.
Proof. repeat split; try reflexivity. intros H. discriminate H. Qed.

(** The claim C1 as the specification words it fails: an [Exception] whose
    class makes [__repr__] return the empty string gives a [crashed] status
    with an empty detail, stored and returned by [status()]. *)
Lemma C1_counterexample :
  Py.exc_is_Exception Py.Blank = true /\
  Py.repr Py.Blank = Py.Shows EmptyString /\
  _status (run (raising Py.Blank)
               [DoStart; DoWorker 0; DoWorker 0; DoWorker 0; DoWorker 0]
               (init unit)).2 =
    Build_BotStatus false "crashed" EmptyString /\
  returned (run (raising Py.Blank)
                [DoStart; DoWorker 0; DoWorker 0; DoWorker 0; DoWorker 0;
                 DoStatus] (init unit)).1 =
    [Build_BotStatus true "starting" "launching thread";
     Build_BotStatus false "crashed" EmptyString].
Proof. repeat split; reflexivity. Qed.

(** The claim C7 as the specification words it fails: a task body that
    raises [SystemExit], which [except Exception] does not catch, and one
    that raises an [Exception] whose [repr] raises, both end the worker
    with the status of line 73 still stored, not [crashed]. *)
Lemma C7_counterexample :
  (run (raising (Py.SystemExit "bye"))
       [DoStart; DoWorker 0; DoWorker 0; DoWorker 0; DoWorker 0; DoWorker 0]
       (init unit)).2 =
    Build_World (Build_BotStatus true "running" "started") (Some 0) false
                [Dead (Escaped (Py.SystemExit "bye"))] /\
  Py.exc_is_Exception Py.Unprintable = true /\
  (run (raising Py.Unprintable)
       [DoStart; DoWorker 0; DoWorker 0; DoWorker 0; DoWorker 0; DoWorker 0]
       (init unit)).2 =
    Build_World (Build_BotStatus true "running" "started") (Some 0) false
                [Dead (HandlerFailed Py.Unprintable (Py.ValueError "no repr"))].
Proof. repeat split; reflexivity. Qed.

(** C3 at the initial runtime. *)
Lemma C3_witness :
  thread_alive (init unit) = false /\
  start (init unit) =
  (Build_BotStatus true "starting" "launching thread",
   Build_World (Build_BotStatus true "starting" "launching thread")
               (Some 0) false [AtEnter]).
Proof.
  split; [reflexivity|].
  apply (proj1 (C3_start_without_worker _run_bot) (init unit)). reflexivity.
Defined.

(** C4 at the initial runtime. *)
Lemma C4_witness :
  thread_alive (init unit) = false /\
  stop (init unit) =
  (Build_BotStatus false "stopped" "already stopped",
   Build_World (Build_BotStatus false "stopped" "already stopped")
               None false []).
Proof.
  split; [reflexivity|]. apply (C4_stop_without_worker (init unit)). reflexivity.
Defined.

(** C5 at the runtime a first [start()] leaves. *)
Lemma C5_witness :
  thread_alive demo_started = true /\
  stop demo_started =
  (Build_BotStatus true "stopping" "stop requested",
   Build_World (Build_BotStatus true "stopping" "stop requested")
               (Some 0) true [AtEnter]).
Proof.
  split; [reflexivity|]. apply (C5_stop_with_worker demo_started). reflexivity.
Defined.

(** C6 at the first step of the first worker. *)
Lemma C6_witness :
  threads demo_started !! 0 = Some AtEnter /\
  exec _run_bot (DoWorker 0) demo_started =
  (Work 0 (SetStatus (Build_BotStatus true "running" "started")),
   Build_World (Build_BotStatus true "running" "started")
               (Some 0) false [AtCall]).
Proof.
  split; [reflexivity|].
  apply (proj1 (C6_worker_run _run_bot) demo_started 0). reflexivity.
Defined.

(** C7 at the handler of the crash scenario. *)
Lemma C7_witness :
  threads demo_caught !! 0 = Some (AtExcept (Py.ValueError "boom")) /\
  count_worker 0 [DoStatus; DoStop] = 0 /\
  exec (raising (Py.ValueError "boom")) (DoWorker 0)
       (run (raising (Py.ValueError "boom")) [DoStatus; DoStop] demo_caught).2 =
  (Work 0 (SetStatus (Build_BotStatus false "crashed" "ValueError('boom')")),
   Build_World (Build_BotStatus false "crashed" "ValueError('boom')")
               (Some 0) true [AtExit (Crashed (Py.ValueError "boom"))]).
Proof.
  split; [reflexivity|]. split; [reflexivity|].
  apply (proj1 (proj2 (proj2 (C7_task_failure
                                (raising (Py.ValueError "boom")))))
           demo_caught 0 (Py.ValueError "boom") "ValueError('boom')"
           [DoStatus; DoStop]);
    reflexivity.
Defined.

(** C9 at the runtime a first [start()] leaves. *)
Lemma C9_witness :
  thread_alive demo_started = true /\
  _status (stop demo_started).2 =
    Build_BotStatus true "stopping" "stop requested" /\
  _status (start (stop demo_started).2).2 =
    Build_BotStatus true "running" "already running" /\
  _stop_event (start (stop demo_started).2).2 = true.
Proof.
  split; [reflexivity|].
  pose proof (proj1 (proj2 (C9_noop_start_keeps_cancellation unit _run_bot))
                demo_started eq_refl) as H.
  cbv zeta in H. destruct H as (H1 & _ & _ & H4 & H5 & _).
  exact (conj H1 (conj H4 H5)).
Defined.

(** C10 at the runtime the crash scenario leaves. *)
Lemma C10_witness :
  thread_alive demo_crashed = false /\
  _status demo_crashed = Build_BotStatus false "crashed" "ValueError('boom')" /\
  stop demo_crashed =
  (Build_BotStatus false "stopped" "already stopped",
   Build_World (Build_BotStatus false "stopped" "already stopped")
               (Some 0) false [Dead (Crashed (Py.ValueError "boom"))]).
Proof.
  split; [reflexivity|]. split; [reflexivity|].
  apply (C10_noop_stop_overwrites unit _run_bot demo_crashed
           "ValueError('boom')"); reflexivity.
Defined.

(** ** How the operations compose *)

Section Composition.

Context {B : Type} (run_bot : TaskBody B).

Lemma thread_alive_set_status (s : BotStatus) (w : World B) :
  thread_alive (set_status s w) = thread_alive w.
Proof. done. Qed.

Lemma thread_alive_spawned (s : BotStatus) (ev : bool) (l : list (Pc B)) :
  thread_alive (Build_World s (Some (length l)) ev (l ++ [AtEnter])) = true.
Proof.
  unfold thread_alive. simpl. by rewrite lookup_app_r, Nat.sub_diag.
Qed.

(** X1: After [start()] a worker is alive, whatever the runtime was: a [stop()]
    that follows requests the stop and sets the event, and a second
    [start()] creates no thread. *)
Theorem start_leaves_live_worker (w : World B) :
  thread_alive (start w).2 = true /\
  stop (start w).2 =
    (Build_BotStatus true "stopping" "stop requested",
     Build_World (Build_BotStatus true "stopping" "stop requested")
                 (_thread (start w).2) true (threads (start w).2)) /\
  start (start w).2 =
    (Build_BotStatus true "running" "already running",
     Build_World (Build_BotStatus true "running" "already running")
                 (_thread (start w).2) (_stop_event (start w).2)
                 (threads (start w).2)).
Proof.
  assert (H : thread_alive (start w).2 = true).
  { destruct (thread_alive w) eqn:Hal.
    - by rewrite start_alive.
    - rewrite start_not_alive by done. apply thread_alive_spawned. }
  split; [done|]. split; [by apply stop_alive|by apply start_alive].
Qed.

(** X2: [stop()] is idempotent: a second [stop()] right after the first returns
    the same status and leaves the same runtime. *)
Theorem stop_idempotent (w : World B) :
  stop (stop w).2 = stop w.
Proof.
  destruct (thread_alive w) eqn:Hal.
  - rewrite (stop_alive w Hal). simpl. by rewrite stop_alive.
  - rewrite (stop_not_alive w Hal). simpl. by rewrite stop_not_alive.
Qed.

(** X3: The event changes in two places only: a [start()] that creates a
    thread clears it (line 48) and a [stop()] that finds a live worker sets
    it (line 64); no worker step and no [status()] writes it. *)
Theorem event_written_by (a : Action) (w : World B) :
  _stop_event (exec run_bot a w).2 <> _stop_event w ->
  (a = DoStart /\ thread_alive w = false /\
   _stop_event w = true /\ _stop_event (exec run_bot a w).2 = false) \/
  (a = DoStop /\ thread_alive w = true /\
   _stop_event w = false /\ _stop_event (exec run_bot a w).2 = true).
Proof.
  destruct a as [| | |t]; simpl.
  - done.
  - destruct (thread_alive w) eqn:Hal.
    + by rewrite start_alive.
    + rewrite start_not_alive by done. simpl. intros H. left.
      by destruct (_stop_event w).
  - destruct (thread_alive w) eqn:Hal.
    + rewrite stop_alive by done. simpl. intros H. right.
      by destruct (_stop_event w).
    + by rewrite stop_not_alive.
  - destruct (thread_step run_bot t w) as [[d w']|] eqn:H; simpl; [|done].
    by apply thread_step_inv in H as (pc & pc' & _ & _ & ->).
Qed.

Lemma handle_is_last_exec (a : Action) (w : World B) :
  handle_is_last w -> handle_is_last (exec run_bot a w).2.
Proof.
  intros Hw. destruct a as [| | |t]; simpl.
  - done.
  - destruct (thread_alive w) eqn:Hal.
    + by rewrite start_alive.
    + rewrite start_not_alive by done. unfold handle_is_last. simpl.
      rewrite length_app. simpl. lia.
  - destruct (thread_alive w) eqn:Hal.
    + by rewrite stop_alive.
    + by rewrite stop_not_alive.
  - destruct (thread_step run_bot t w) as [[d w']|] eqn:H; simpl; [|done].
    apply thread_step_inv in H as (pc & pc' & Hpc & _ & ->).
    unfold handle_is_last in *. simpl.
    destruct (_thread w) as [h|].
    + by rewrite length_insert.
    + by rewrite Hw in Hpc.
Qed.

Lemma exec_spawns (a : Action) (w : World B) :
  length (threads (exec run_bot a w).2) <=
  length (threads w) + count_start [a].
Proof.
  destruct a as [| | |t]; simpl.
  - lia.
  - unfold start. destruct (thread_alive w); simpl; [lia|].
    rewrite length_app. simpl. lia.
  - unfold stop. destruct (thread_alive w); simpl; lia.
  - destruct (thread_step run_bot t w) as [[d w']|] eqn:H; simpl; [|lia].
    apply thread_step_inv in H as (pc & pc' & _ & _ & ->). simpl.
    rewrite length_insert. lia.
Qed.

Lemma count_start_app (s1 s2 : list Action) :
  count_start (s1 ++ s2) = count_start s1 + count_start s2.
Proof.
  induction s1 as [|a s1 IH]; simpl; [done|]. destruct a; simpl; lia.
Qed.

(** X4: After any schedule the handle is the thread created last (or nothing
    was ever created), and there are no more threads than [start()] calls:
    threads come from line 51 only. *)
Theorem handle_is_newest_thread (sch : list Action) :
  handle_is_last (run run_bot sch (init B)).2 /\
  length (threads (run run_bot sch (init B)).2) <= count_start sch.
Proof.
  induction sch as [|a sch [IH1 IH2]] using rev_ind.
  - split; [done|]. simpl. lia.
  - rewrite run_snoc, count_start_app.
    pose proof (exec_spawns a (run run_bot sch (init B)).2) as Hs.
    set (k := count_start [a]) in *. simpl. split.
    + by apply handle_is_last_exec.
    + lia.
Qed.

(** X5: A thread that has terminated is never run again: whatever is called
    and scheduled afterwards, its entry and its outcome stay, and a thread
    that exists keeps existing. *)
Theorem dead_thread_stays_dead (sch : list Action) (w : World B) (t : nat)
    (pc : Pc B) :
  threads w !! t = Some pc ->
  is_Some (threads (run run_bot sch w).2 !! t) /\
  (is_alive pc = false -> threads (run run_bot sch w).2 !! t = Some pc).
Proof.
  intros Hpc. split.
  - apply lookup_lt_is_Some. apply lookup_lt_Some in Hpc.
    pose proof (run_length run_bot sch w). lia.
  - intros Ha. destruct pc; try done. revert w Hpc.
    induction sch as [|a sch IH]; intros w Hpc; [done|].
    rewrite run_cons. simpl. by apply IH, exec_dead.
Qed.

Lemma idle_back (a : Action) (w : World B) :
  state (_status (exec run_bot a w).2) = "idle" ->
  state (_status w) = "idle" /\ quiet a = true.
Proof.
  destruct a as [| | |t]; simpl.
  - done.
  - unfold start. by destruct (thread_alive w).
  - unfold stop. by destruct (thread_alive w).
  - destruct (thread_step run_bot t w) as [[d w']|] eqn:H; simpl; [|done].
    apply thread_step_inv in H as (pc & pc' & Hpc & Hs & ->). simpl.
    destruct pc as [| |b| |e|o|o]; simpl in Hs; try done;
      try (by inversion Hs; subst).
    + destruct (body_step run_bot (_stop_event w) b); by inversion Hs; subst.
    + destruct (Py.repr e); by inversion Hs; subst.
Qed.

(** X6: The state [idle] is that of a runtime nobody has used: if it is stored
    after a schedule, the schedule held no [start()] and no [stop()] and the
    runtime is as [__init__] made it. *)
Theorem idle_means_untouched (sch : list Action) :
  state (_status (run run_bot sch (init B)).2) = "idle" ->
  Forall (fun a => quiet a = true) sch /\
  (run run_bot sch (init B)).2 = init B.
Proof.
  induction sch as [|a sch IH] using rev_ind; [done|].
  rewrite run_snoc. simpl. intros H.
  apply idle_back in H as [Hi Hq]. destruct (IH Hi) as [Hf Hw].
  split; [apply Forall_app; split; [done|by constructor]|].
  rewrite Hw. by destruct a.
Qed.

Lemma start_returns_stored (w : World B) : (start w).1 = _status (start w).2.
Proof. unfold start. by destruct (thread_alive w). Qed.

Lemma stop_returns_stored (w : World B) : (stop w).1 = _status (stop w).2.
Proof. unfold stop. by destruct (thread_alive w). Qed.

Lemma exec_start (w : World B) :
  exec run_bot DoStart w = (Ret DoStart (start w).1, (start w).2).
Proof. simpl. by destruct (start w). Qed.

Lemma exec_stop (w : World B) :
  exec run_bot DoStop w = (Ret DoStop (stop w).1, (stop w).2).
Proof. simpl. by destruct (stop w). Qed.

Ltac literal :=
  left; unfold literal_statuses; repeat constructor.

Lemma constructible_exec (a : Action) (w : World B) :
  constructible (_status w) -> constructible (_status (exec run_bot a w).2).
Proof.
  intros Hw. destruct a as [| | |t]; simpl.
  - done.
  - unfold start. destruct (thread_alive w); simpl; literal.
  - unfold stop. destruct (thread_alive w); simpl; literal.
  - destruct (thread_step run_bot t w) as [[d w']|] eqn:H; simpl; [|done].
    apply thread_step_inv in H as (pc & pc' & Hpc & Hs & ->). simpl.
    destruct pc as [| |b| |e|o|o]; simpl in Hs; try done;
      try (inversion Hs; subst; simpl; try done).
    + literal.
    + destruct (body_step run_bot (_stop_event w) b);
        by inversion Hs; subst.
    + literal.
    + destruct (Py.repr e) as [text|e'] eqn:Hr; inversion Hs; subst; simpl;
        [|done]. right. by exists e, text.
Qed.

(** X7: Every status stored or returned after any schedule is one of the seven
    literal statuses of the source or [BotStatus(False, "crashed", text)]
    for a [text] that [repr(e)] returned: no other state or detail text is
    ever shown. *)
Theorem statuses_constructible (sch : list Action) :
  Forall constructible
         (_status (run run_bot sch (init B)).2 ::
          returned (run run_bot sch (init B)).1).
Proof.
  induction sch as [|a sch IH] using rev_ind.
  - constructor; [|constructor]. literal.
  - rewrite run_snoc. simpl. inversion IH as [|s l Hs Hl]; subst.
    assert (Hnew := constructible_exec a _ Hs).
    constructor; [done|]. rewrite returned_app. apply Forall_app.
    split; [done|].
    destruct a as [| | |t].
    + simpl. by constructor.
    + rewrite exec_start in *. simpl in *.
      constructor; [|constructor]. by rewrite start_returns_stored.
    + rewrite exec_stop in *. simpl in *.
      constructor; [|constructor]. by rewrite stop_returns_stored.
    + simpl. by destruct (thread_step run_bot t _) as [[d w']|].
Qed.

End Composition.

(** ** What the status tells about the worker *)

Section StatusAndWorker.

Context {B : Type} (run_bot : TaskBody B).

Lemma working_alive (pc : Pc B) : working pc = true -> is_alive pc = true.
Proof. by destruct pc. Qed.

Lemma working_step (is_set : bool) (pc pc' : Pc B) (d : Did) (s : BotStatus) :
  pc_step run_bot is_set pc = Some (d, pc') ->
  working pc' = true ->
  working pc = true /\ (running s = true -> running (apply_did d s) = true).
Proof.
  intros Hs Hw. destruct pc as [| |b| |e|o|o]; simpl in Hs;
    try (by inversion Hs; subst).
  - destruct (body_step run_bot is_set b); by inversion Hs; subst.
  - destruct (Py.repr e); by inversion Hs; subst.
Qed.

Lemma sole_owner_same (w : World B) (t t' : nat) (pc pc' : Pc B) :
  sole_owner w ->
  threads w !! t = Some pc -> is_alive pc = true ->
  threads w !! t' = Some pc' -> is_alive pc' = true ->
  t = t'.
Proof.
  intros Hw H1 A1 H2 A2.
  pose proof (Hw t pc H1 A1). pose proof (Hw t' pc' H2 A2). congruence.
Qed.

Lemma busy_exec (a : Action) (w : World B) :
  sole_owner w ->
  (forall t pc, threads w !! t = Some pc -> working pc = true ->
     running (_status w) = true) ->
  forall t pc, threads (exec run_bot a w).2 !! t = Some pc ->
    working pc = true -> running (_status (exec run_bot a w).2) = true.
Proof.
  intros Hso Hw t pc. destruct a as [| | |t']; simpl.
  - apply Hw.
  - unfold start. by destruct (thread_alive w).
  - destruct (thread_alive w) eqn:Hal.
    + by rewrite stop_alive.
    + rewrite stop_not_alive by done. simpl. intros Hpc Hwk.
      pose proof (owns_alive w t pc (Hso t) Hpc (working_alive pc Hwk)).
      congruence.
  - destruct (thread_step run_bot t' w) as [[d w']|] eqn:H; simpl;
      [|apply Hw].
    apply thread_step_inv in H as (pc1 & pc' & Hpc1 & Hs & ->). simpl.
    intros Hpc Hwk. destruct (decide (t' = t)) as [->|Hne].
    + rewrite list_lookup_insert_eq in Hpc by (by eapply lookup_lt_Some).
      inversion Hpc; subst pc'.
      destruct (working_step _ _ _ _ (_status w) Hs Hwk) as [Hwk1 Hrun].
      apply Hrun. by apply (Hw t pc1).
    + rewrite list_lookup_insert_ne in Hpc by done. exfalso. apply Hne.
      apply (sole_owner_same w t' t pc1 pc); try done.
      * by eapply pc_step_was_alive.
      * by apply working_alive.
Qed.

(** X8: While a worker has not made its last status write (it is before, in or
    just after [_run_bot]), the stored status has [running] true: no call
    and no step makes the runtime look stopped while the body still
    runs. *)
Theorem running_while_working (sch : list Action) (t : nat) (pc : Pc B) :
  threads (run run_bot sch (init B)).2 !! t = Some pc ->
  working pc = true ->
  running (_status (run run_bot sch (init B)).2) = true.
Proof.
  revert t pc. induction sch as [|a sch IH] using rev_ind; [done|].
  rewrite run_snoc. simpl. apply busy_exec; [|done].
  apply sole_owner_run, sole_owner_init.
Qed.

(** A step that writes no status and moves a live thread on, but neither
    from the entry nor away from its outcome, keeps [reflects]. *)
Lemma reflects_move (w : World B) (t' : nat) (pc pc' : Pc B) :
  sole_owner w -> reflects w ->
  threads w !! t' = Some pc -> is_alive pc = true ->
  pc <> AtEnter -> (forall o, pc = AtExit o -> pc' = Dead o) ->
  reflects (Build_World (_status w) (_thread w) (_stop_event w)
                        (<[t' := pc']> (threads w))).
Proof.
  intros Hso (R1 & R2 & R3 & R4 & R5) Hpc Ha Hne Hout.
  assert (Hh : _thread w = Some t') by by apply (Hso t' pc).
  assert (Hnew : <[t' := pc']> (threads w) !! t' = Some pc').
  { apply list_lookup_insert_eq. by eapply lookup_lt_Some. }
  unfold reflects. simpl. split; [|split; [|split; [|split]]].
  - intros H. destruct (R1 H) as [Hnil _]. by rewrite Hnil in Hpc.
  - intros H. destruct (R2 H) as (t & Ht & Hl & _). congruence.
  - intros H. destruct (R3 H) as (Hev & _). split; [done|]. by exists t', pc'.
  - intros H. destruct (R4 H) as (t & Ht & Hl). exists t'. split; [done|].
    assert (t = t') as -> by congruence. rewrite Hnew. right. f_equal.
    destruct Hl as [Hl|Hl]; rewrite Hpc in Hl; inversion Hl; subst; [|done].
    by apply Hout.
  - intros H. destruct (R5 H) as (t & e & text & Ht & Hr & Hst & Hl).
    exists t', e, text. split; [done|]. split; [done|]. split; [done|].
    assert (t = t') as -> by congruence. rewrite Hnew. right. f_equal.
    destruct Hl as [Hl|Hl]; rewrite Hpc in Hl; inversion Hl; subst; [|done].
    by apply Hout.
Qed.

Lemma reflects_exec (a : Action) (w : World B) :
  sole_owner w -> reflects w -> reflects (exec run_bot a w).2.
Proof.
  intros Hso Hw. destruct a as [| | |t'].
  - done.
  - rewrite exec_start. simpl. destruct (thread_alive w) eqn:Hal.
    + rewrite start_alive by done. unfold reflects. simpl.
      repeat split; intros; done.
    + rewrite start_not_alive by done. unfold reflects. simpl.
      split; [|split; [|split; [|split]]]; intros H; try done.
      exists (length (threads w)). split; [done|]. split; [|done].
      by rewrite lookup_app_r, Nat.sub_diag.
  - rewrite exec_stop. simpl. destruct (thread_alive w) eqn:Hal.
    + rewrite stop_alive by done. unfold reflects. simpl.
      split; [|split; [|split; [|split]]]; intros H; try done.
      split; [done|]. unfold thread_alive in Hal.
      destruct (_thread w) as [t|]; [|done].
      destruct (threads w !! t) as [pc|] eqn:Hpc; [|done]. by exists t, pc.
    + rewrite stop_not_alive by done. unfold reflects. simpl.
      repeat split; intros; done.
  - simpl. destruct (thread_step run_bot t' w) as [[d w']|] eqn:Hts; simpl;
      [|done].
    apply thread_step_inv in Hts as (pc & pc' & Hpc & Hs & Hw').
    subst w'.
    assert (Ha : is_alive pc = true) by by eapply pc_step_was_alive.
    assert (Hh : _thread w = Some t') by by apply (Hso t' pc).
    assert (Hnew : forall x, <[t' := x]> (threads w) !! t' = Some x).
    { intros x. apply list_lookup_insert_eq. by eapply lookup_lt_Some. }
    destruct pc as [| |b| |e|o|o]; simpl in Hs.
    + inversion Hs; subst. unfold reflects. simpl.
      repeat split; intros; done.
    + inversion Hs; subst. simpl. by apply reflects_move with (pc := AtCall).
    + destruct (body_step run_bot (_stop_event w) b) as [b'| |e];
        inversion Hs; subst; simpl;
        by apply reflects_move with (pc := InBody b).
    + inversion Hs; subst. unfold reflects. simpl.
      split; [|split; [|split; [|split]]]; intros H; try done.
      exists t'. split; [done|]. left. apply Hnew.
    + destruct (Py.repr e) as [text|e'] eqn:Hr; inversion Hs; subst.
      * unfold reflects. simpl.
        split; [|split; [|split; [|split]]]; intros H; try done.
        exists t', e, text. split; [done|]. split; [done|]. split; [done|].
        left. apply Hnew.
      * simpl. by apply reflects_move with (pc := AtExcept e).
    + inversion Hs; subst. simpl.
      apply reflects_move with (pc := AtExit o); try done.
      by intros o' [= ->].
    + done.
Qed.

(** X9: After any schedule the stored status agrees with the worker [_thread]
    refers to: [idle] means nothing was ever started; [starting] that the
    new thread has not made a step and the event is clear; [stopping] that
    the event is set; [stopped]/[finished] that this worker's [_run_bot]
    returned; [crashed] that this worker caught the exception for which
    [repr] returned the detail. *)
Theorem status_reflects_worker (sch : list Action) :
  reflects (run run_bot sch (init B)).2.
Proof.
  induction sch as [|a sch IH] using rev_ind.
  - unfold reflects. simpl. repeat split; intros; done.
  - rewrite run_snoc. simpl. apply reflects_exec; [|done].
    apply sole_owner_run, sole_owner_init.
Qed.

End StatusAndWorker.

(** ** Task bodies that behave *)

Section WellBehaved.

Context {B : Type} (run_bot : TaskBody B).

Lemma clean_step (is_set : bool) (pc pc' : Pc B) (d : Did) (s : BotStatus) :
  (forall ev b e, body_step run_bot ev b <> Raise e) ->
  pc_step run_bot is_set pc = Some (d, pc') ->
  clean pc = true -> state s <> "crashed" ->
  clean pc' = true /\ state (apply_did d s) <> "crashed".
Proof.
  intros Hnr Hs Hc Hst. destruct pc as [| |b| |e|o|o]; simpl in Hs;
    try (by inversion Hs; subst).
  - destruct (body_step run_bot is_set b) as [b'| |e] eqn:Hb;
      try (by inversion Hs; subst). by destruct (Hnr is_set b e).
Qed.

(** The invariant of a runtime whose task body never raises. *)
Lemma no_crash_exec (a : Action) (os : list Obs) (w : World B) :
  (forall ev b e, body_step run_bot ev b <> Raise e) ->
  Forall (fun pc => clean pc = true) (threads w) ->
  Forall (fun s => state s <> "crashed") (_status w :: returned os) ->
  Forall (fun pc => clean pc = true) (threads (exec run_bot a w).2) /\
  Forall (fun s => state s <> "crashed")
         (_status (exec run_bot a w).2 ::
          returned (os ++ [(exec run_bot a w).1])).
Proof.
  intros Hnr Hth Hst. inversion Hst as [|s l Hs Hret]; subst.
  rewrite returned_app. destruct a as [| | |t].
  - simpl. split; [done|]. constructor; [done|].
    apply Forall_app. split; [done|]. by constructor.
  - rewrite exec_start. simpl. rewrite start_returns_stored.
    assert (state (_status (start w).2) <> "crashed").
    { unfold start. by destruct (thread_alive w). }
    split.
    + unfold start. destruct (thread_alive w); simpl; [done|].
      apply Forall_app. split; [done|]. by constructor.
    + constructor; [done|]. apply Forall_app. split; [done|]. by constructor.
  - rewrite exec_stop. simpl. rewrite stop_returns_stored.
    assert (state (_status (stop w).2) <> "crashed").
    { unfold stop. by destruct (thread_alive w). }
    split.
    + unfold stop. by destruct (thread_alive w).
    + constructor; [done|]. apply Forall_app. split; [done|]. by constructor.
  - simpl. destruct (thread_step run_bot t w) as [[d w']|] eqn:Hts; simpl.
    2:{ split; [done|]. constructor; [done|]. by rewrite app_nil_r. }
    apply thread_step_inv in Hts as (pc & pc' & Hpc & Hstep & ->). simpl.
    assert (Hc : clean pc = true).
    { by apply (proj1 (Forall_lookup _ _) Hth t pc). }
    destruct (clean_step _ _ _ _ (_status w) Hnr Hstep Hc Hs) as [Hc' Hs'].
    split.
    + by apply Forall_insert.
    + constructor; [done|]. by rewrite app_nil_r.
Qed.

(** X10: A task body that never raises never gives [crashed]: after any
    schedule no worker has caught or lost an exception, and no status
    stored or returned has the state [crashed]. *)
Theorem quiet_body_never_crashes (sch : list Action) :
  (forall ev b e, body_step run_bot ev b <> Raise e) ->
  Forall (fun pc => clean pc = true) (threads (run run_bot sch (init B)).2) /\
  Forall (fun s => state s <> "crashed")
         (_status (run run_bot sch (init B)).2 ::
          returned (run run_bot sch (init B)).1).
Proof.
  intros Hnr. induction sch as [|a sch [IH1 IH2]] using rev_ind.
  - split; [constructor|]. by constructor.
  - rewrite run_snoc. simpl. by apply no_crash_exec.
Qed.

Lemma advance_stuck (is_set : bool) (n : nat) (s : BotStatus) (pc : Pc B) :
  pc_step run_bot is_set pc = None ->
  advance run_bot is_set n s pc = (s, pc).
Proof. intros H. destruct n; simpl; [done|]. by rewrite H. Qed.

Lemma advance_add (is_set : bool) (n m : nat) (s : BotStatus) (pc : Pc B) :
  advance run_bot is_set (n + m) s pc =
  advance run_bot is_set m (advance run_bot is_set n s pc).1
                           (advance run_bot is_set n s pc).2.
Proof.
  revert s pc. induction n as [|n IH]; intros s pc; simpl; [done|].
  destruct (pc_step run_bot is_set pc) as [[d pc']|] eqn:Hs; [apply IH|].
  simpl. by rewrite advance_stuck.
Qed.

(** With one thread and no [start()] or [stop()], a schedule is as many
    steps of that thread as it gives to it. *)
Lemma quiet_run (sch : list Action) (s : BotStatus) (ev : bool) (pc : Pc B) :
  Forall (fun a => quiet a = true) sch ->
  (run run_bot sch (Build_World s (Some 0) ev [pc])).2 =
  Build_World (advance run_bot ev (count_worker 0 sch) s pc).1 (Some 0) ev
              [(advance run_bot ev (count_worker 0 sch) s pc).2].
Proof.
  revert s pc. induction sch as [|a sch IH]; intros s pc Hq; [done|].
  inversion Hq as [|a' l Ha Hl]; subst. rewrite run_cons.
  destruct a as [| | |t]; try done.
  - simpl. by apply IH.
  - destruct t as [|t].
    + cbn [count_worker Nat.eqb]. unfold exec, thread_step. simpl.
      destruct (pc_step run_bot ev pc) as [[d pc']|] eqn:Hs; simpl.
      * by rewrite IH.
      * rewrite IH by done. by rewrite advance_stuck.
    + cbn [count_worker Nat.eqb]. unfold exec, thread_step. simpl.
      by apply IH.
Qed.

End WellBehaved.

(** ** The task body of the source *)

Lemma run_bot_waits_exec (a : Action) (w : World unit) :
  a <> DoStop ->
  _stop_event w = false ->
  Forall (fun pc => early pc = true) (threads w) ->
  state (_status w) = "idle" \/ state (_status w) = "starting" \/
    state (_status w) = "running" ->
  _stop_event (exec _run_bot a w).2 = false /\
  Forall (fun pc => early pc = true) (threads (exec _run_bot a w).2) /\
  (state (_status (exec _run_bot a w).2) = "idle" \/
   state (_status (exec _run_bot a w).2) = "starting" \/
   state (_status (exec _run_bot a w).2) = "running").
Proof.
  intros Ha Hev Hth Hst. destruct a as [| | |t]; try done.
  - rewrite exec_start. simpl. unfold start.
    destruct (thread_alive w); simpl; [auto|].
    split; [done|]. split; [|auto].
    apply Forall_app. split; [done|]. by constructor.
  - simpl. destruct (thread_step _run_bot t w) as [[d w']|] eqn:Hts; simpl;
      [|done].
    apply thread_step_inv in Hts as (pc & pc' & Hpc & Hs & ->). simpl.
    assert (He : early pc = true).
    { by apply (proj1 (Forall_lookup _ _) Hth t pc). }
    rewrite Hev in Hs.
    destruct pc as [| |[]| |e|o|o]; try done; simpl in Hs;
      inversion Hs; subst; simpl;
      (split; [done|]); (split; [by apply Forall_insert|auto]).
Qed.

(** X11: The [_run_bot] of the source keeps its thread alive until [stop()] is
    called: after a schedule without [stop()] the event is clear, every
    thread is still before or inside [_run_bot], and the state is [idle],
    [starting] or [running]. *)
Theorem run_bot_waits_for_stop (sch : list Action) :
  Forall (fun a => a <> DoStop) sch ->
  _stop_event (run _run_bot sch (init unit)).2 = false /\
  Forall (fun pc => early pc = true)
         (threads (run _run_bot sch (init unit)).2) /\
  (state (_status (run _run_bot sch (init unit)).2) = "idle" \/
   state (_status (run _run_bot sch (init unit)).2) = "starting" \/
   state (_status (run _run_bot sch (init unit)).2) = "running").
Proof.
  induction sch as [|a sch IH] using rev_ind; intros Hns.
  - split; [done|]. split; [constructor|]. by left.
  - apply Forall_app in Hns as [Hns Ha].
    apply (proj1 (Forall_singleton _ _)) in Ha.
    destruct (IH Hns) as (E1 & E2 & E3).
    rewrite run_snoc. simpl. by apply run_bot_waits_exec.
Qed.

Lemma advance_waiting (n : nat) :
  advance _run_bot false n
    (Build_BotStatus true "starting" "launching thread") AtEnter =
  (Build_BotStatus true "starting" "launching thread", AtEnter) \/
  advance _run_bot false n
    (Build_BotStatus true "starting" "launching thread") AtEnter =
  (Build_BotStatus true "running" "started", AtCall) \/
  advance _run_bot false n
    (Build_BotStatus true "starting" "launching thread") AtEnter =
  (Build_BotStatus true "running" "started", InBody tt).
Proof.
  destruct n as [|[|n]]; [by left|right; by left|]. right; right.
  change (advance _run_bot false (S (S n)) _ _) with
    (advance _run_bot false n (Build_BotStatus true "running" "started")
             (InBody tt)).
  induction n as [|n IH]; [done|]. exact IH.
Qed.

Lemma advance_cancelled (n : nat) (s : BotStatus) (pc : Pc unit) :
  early pc = true -> 5 <= n ->
  advance _run_bot true n s pc =
  (Build_BotStatus false "stopped" "finished", Dead Finished).
Proof.
  intros He Hn. replace n with (5 + (n - 5)) by lia.
  rewrite advance_add.
  destruct pc as [| |[]| |e|o|o]; try done; simpl; by apply advance_stuck.
Qed.

(** X12: The stop scenario with the [_run_bot] of the source: [start()], then
    [stop()], with only [status()] calls and worker steps around them.
    Once the worker has had five steps after the [stop()], the runtime
    holds [BotStatus(False, "stopped", "finished")], the event is set and
    the one thread has terminated, its [_run_bot] having returned. *)
Theorem start_stop_settles (sch1 sch2 : list Action) :
  Forall (fun a => quiet a = true) sch1 ->
  Forall (fun a => quiet a = true) sch2 ->
  5 <= count_worker 0 sch2 ->
  (run _run_bot (DoStart :: sch1 ++ DoStop :: sch2) (init unit)).2 =
  Build_World (Build_BotStatus false "stopped" "finished") (Some 0) true
              [Dead Finished].
Proof.
  intros Hq1 Hq2 Hn.
  rewrite run_cons, run_app, run_cons.
  cbn [snd]. rewrite exec_start. cbn [snd].
  change (start (init unit)).2 with
    (Build_World (Build_BotStatus true "starting" "launching thread")
                 (Some 0) false [@AtEnter unit]).
  rewrite (quiet_run _run_bot sch1 _ false AtEnter Hq1).
  rewrite exec_stop. cbn [snd].
  assert (Hstop : forall s (pc : Pc unit),
            early pc = true ->
            (stop (Build_World s (Some 0) false [pc])).2 =
            Build_World (Build_BotStatus true "stopping" "stop requested")
                        (Some 0) true [pc]).
  { intros s pc He. rewrite stop_alive; [done|]. by destruct pc. }
  destruct (advance_waiting (count_worker 0 sch1)) as [E|[E|E]];
    rewrite E; cbn [fst snd]; rewrite Hstop by done;
    rewrite (quiet_run _run_bot sch2 _ true _ Hq2);
    by rewrite advance_cancelled.
Qed.

(** ** Scenarios *)

(** X13: The crash scenario: a task body that raises at once an
    [Exception] [e] whose [repr(e)] returns [text].  After [start()], with
    only [status()] calls and worker steps, once the worker has had five
    steps the runtime holds [BotStatus(False, "crashed", text)] and the
    thread has terminated; the event was never set. *)
Theorem crash_scenario (e : Py.Exc) (text : string) (sch : list Action) :
  Py.exc_is_Exception e = true ->
  Py.repr e = Py.Shows text ->
  Forall (fun a => quiet a = true) sch ->
  5 <= count_worker 0 sch ->
  (run (raising e) (DoStart :: sch) (init unit)).2 =
  Build_World (Build_BotStatus false "crashed" text) (Some 0) false
              [Dead (Crashed e)].
Proof.
  intros He Hr Hq Hn. rewrite run_cons. cbn [snd]. rewrite exec_start.
  cbn [snd].
  change (start (init unit)).2 with
    (Build_World (Build_BotStatus true "starting" "launching thread")
                 (Some 0) false [@AtEnter unit]).
  rewrite (quiet_run (raising e) sch _ false AtEnter Hq).
  replace (count_worker 0 sch) with (5 + (count_worker 0 sch - 5)) by lia.
  rewrite advance_add. simpl. rewrite He. simpl. rewrite Hr. simpl.
  by rewrite advance_stuck.
Qed.

(** X16: When [repr(e)] raises in the handler of line 83, nothing is
    stored: with a task body that raises at once an [Exception] [e] whose
    [repr(e)] raises [e'], after [start()] and five worker steps the thread
    has terminated with [e'] and the runtime still holds
    [BotStatus(True, "running", "started")], with no live worker. *)
Theorem handler_failure_scenario (e e' : Py.Exc) (sch : list Action) :
  Py.exc_is_Exception e = true ->
  Py.repr e = Py.Fails e' ->
  Forall (fun a => quiet a = true) sch ->
  5 <= count_worker 0 sch ->
  (run (raising e) (DoStart :: sch) (init unit)).2 =
  Build_World (Build_BotStatus true "running" "started") (Some 0) false
              [Dead (HandlerFailed e e')].
Proof.
  intros He Hr Hq Hn. rewrite run_cons. cbn [snd]. rewrite exec_start.
  cbn [snd].
  change (start (init unit)).2 with
    (Build_World (Build_BotStatus true "starting" "launching thread")
                 (Some 0) false [@AtEnter unit]).
  rewrite (quiet_run (raising e) sch _ false AtEnter Hq).
  replace (count_worker 0 sch) with (5 + (count_worker 0 sch - 5)) by lia.
  rewrite advance_add. simpl. rewrite He. simpl. rewrite Hr. simpl.
  by rewrite advance_stuck.
Qed.

(** X14: An exception that is not an [Exception] (a [SystemExit], say) passes
    line 81: the thread ends without a status write, and the runtime keeps
    [BotStatus(True, "running", "started")] with no live worker, until the
    next [start()] or [stop()]. *)
Theorem escape_scenario (e : Py.Exc) (sch : list Action) :
  Py.exc_is_Exception e = false ->
  Forall (fun a => quiet a = true) sch ->
  4 <= count_worker 0 sch ->
  (run (raising e) (DoStart :: sch) (init unit)).2 =
  Build_World (Build_BotStatus true "running" "started") (Some 0) false
              [Dead (Escaped e)].
Proof.
  intros He Hq Hn. rewrite run_cons. cbn [snd]. rewrite exec_start. cbn [snd].
  change (start (init unit)).2 with
    (Build_World (Build_BotStatus true "starting" "launching thread")
                 (Some 0) false [@AtEnter unit]).
  rewrite (quiet_run (raising e) sch _ false AtEnter Hq).
  replace (count_worker 0 sch) with (4 + (count_worker 0 sch - 4)) by lia.
  rewrite advance_add. simpl. rewrite He. simpl.
  by rewrite advance_stuck.
Qed.

(** X15: A [stop()] or a [start()] that comes after the worker's last status
    write and before its thread has terminated finds the worker alive and
    overwrites that status; the thread then ends without another write, so
    the runtime keeps [stopping] (or [running]) with no live worker until
    the next [start()] or [stop()]. *)
Theorem calls_in_exit_window (B : Type) (run_bot : TaskBody B)
    (s : BotStatus) (ev : bool) (o : Outcome) (sch : list Action) :
  Forall (fun a => quiet a = true) sch ->
  1 <= count_worker 0 sch ->
  (run run_bot sch (stop (Build_World s (Some 0) ev [AtExit o])).2).2 =
    Build_World (Build_BotStatus true "stopping" "stop requested")
                (Some 0) true [Dead o] /\
  (run run_bot sch (start (Build_World s (Some 0) ev [AtExit o])).2).2 =
    Build_World (Build_BotStatus true "running" "already running")
                (Some 0) ev [Dead o].
Proof.
  intros Hq Hn. split.
  - rewrite stop_alive by done. cbn [snd _thread threads].
    rewrite (quiet_run run_bot sch _ true (AtExit o) Hq).
    replace (count_worker 0 sch) with (1 + (count_worker 0 sch - 1)) by lia.
    rewrite advance_add. simpl. by rewrite advance_stuck.
  - rewrite start_alive by done. unfold set_status. cbn [snd _thread threads].
    simpl. rewrite (quiet_run run_bot sch _ ev (AtExit o) Hq).
    replace (count_worker 0 sch) with (1 + (count_worker 0 sch - 1)) by lia.
    rewrite advance_add. simpl. by rewrite advance_stuck.
Qed.

(** ** The further properties at sample runtimes *)

Lemma event_written_by_witness :
  _stop_event (exec _run_bot DoStop demo_started).2 <> _stop_event demo_started /\
  ((DoStop = DoStart /\ thread_alive demo_started = false /\
    _stop_event demo_started = true /\
    _stop_event (exec _run_bot DoStop demo_started).2 = false) \/
   (DoStop = DoStop /\ thread_alive demo_started = true /\
    _stop_event demo_started = false /\
    _stop_event (exec _run_bot DoStop demo_started).2 = true)).
Proof.
  assert (H : _stop_event (exec _run_bot DoStop demo_started).2 <>
              _stop_event demo_started) by (simpl; discriminate).
  split; [exact H|]. exact (event_written_by _run_bot DoStop demo_started H).
Defined.

Lemma dead_thread_stays_dead_witness :
  threads demo_crashed !! 0 = Some (Dead (Crashed (Py.ValueError "boom"))) /\
  threads (run (raising (Py.ValueError "boom")) [DoStart; DoWorker 0; DoStop]
               demo_crashed).2 !! 0 =
  Some (Dead (Crashed (Py.ValueError "boom"))).
Proof.
  split; [reflexivity|].
  apply (proj2 (dead_thread_stays_dead (raising (Py.ValueError "boom"))
                  [DoStart; DoWorker 0; DoStop] demo_crashed 0 _ eq_refl)).
  reflexivity.
Defined.

Lemma idle_means_untouched_witness :
  state (_status (run _run_bot [DoStatus; DoWorker 3] (init unit)).2) = "idle" /\
  (run _run_bot [DoStatus; DoWorker 3] (init unit)).2 = init unit.
Proof.
  split; [reflexivity|].
  apply (proj2 (idle_means_untouched _run_bot [DoStatus; DoWorker 3] eq_refl)).
Defined.

Lemma running_while_working_witness :
  threads (run _run_bot [DoStart; DoWorker 0; DoStop] (init unit)).2 !! 0 =
    Some AtCall /\
  running (_status (run _run_bot [DoStart; DoWorker 0; DoStop] (init unit)).2) =
    true.
Proof.
  split; [reflexivity|].
  apply (running_while_working _run_bot [DoStart; DoWorker 0; DoStop] 0 AtCall);
    reflexivity.
Defined.

Lemma quiet_body_never_crashes_witness :
  (forall ev b e, body_step _run_bot ev b <> Raise e) /\
  Forall (fun s => state s <> "crashed")
         (_status (run _run_bot [DoStart; DoWorker 0; DoStop] (init unit)).2 ::
          returned (run _run_bot [DoStart; DoWorker 0; DoStop] (init unit)).1).
Proof.
  assert (H : forall ev b e, body_step _run_bot ev b <> Raise e).
  { intros ev b e. destruct ev; discriminate. }
  split; [exact H|].
  exact (proj2 (quiet_body_never_crashes _run_bot
                  [DoStart; DoWorker 0; DoStop] H)).
Defined.

Lemma run_bot_waits_for_stop_witness :
  Forall (fun a => a <> DoStop) [DoStart; DoWorker 0; DoWorker 0; DoWorker 0] /\
  Forall (fun pc => early pc = true)
         (threads (run _run_bot [DoStart; DoWorker 0; DoWorker 0; DoWorker 0]
                       (init unit)).2).
Proof.
  assert (H : Forall (fun a => a <> DoStop)
                     [DoStart; DoWorker 0; DoWorker 0; DoWorker 0]).
  { repeat constructor; discriminate. }
  split; [exact H|].
  exact (proj1 (proj2 (run_bot_waits_for_stop _ H))).
Defined.

Lemma start_stop_settles_witness :
  Forall (fun a => quiet a = true) [DoWorker 0; DoStatus] /\
  Forall (fun a => quiet a = true)
         [DoWorker 0; DoWorker 0; DoStatus; DoWorker 0; DoWorker 0; DoWorker 0] /\
  5 <= count_worker 0
         [DoWorker 0; DoWorker 0; DoStatus; DoWorker 0; DoWorker 0; DoWorker 0] /\
  (run _run_bot
       (DoStart :: [DoWorker 0; DoStatus] ++
        DoStop :: [DoWorker 0; DoWorker 0; DoStatus; DoWorker 0; DoWorker 0;
                   DoWorker 0]) (init unit)).2 =
  Build_World (Build_BotStatus false "stopped" "finished") (Some 0) true
              [Dead Finished].
Proof.
  assert (H1 : Forall (fun a => quiet a = true) [DoWorker 0; DoStatus])
    by (repeat constructor).
  assert (H2 : Forall (fun a => quiet a = true)
                 [DoWorker 0; DoWorker 0; DoStatus; DoWorker 0; DoWorker 0;
                  DoWorker 0]) by (repeat constructor).
  assert (H3 : 5 <= count_worker 0
                 [DoWorker 0; DoWorker 0; DoStatus; DoWorker 0; DoWorker 0;
                  DoWorker 0]) by (simpl; lia).
  split; [exact H1|]. split; [exact H2|]. split; [exact H3|].
  exact (start_stop_settles _ _ H1 H2 H3).
Defined.

Lemma crash_scenario_witness :
  Py.exc_is_Exception (Py.ValueError "boom") = true /\
  Py.repr (Py.ValueError "boom") = Py.Shows "ValueError('boom')" /\
  (run (raising (Py.ValueError "boom"))
       (DoStart :: [DoWorker 0; DoWorker 0; DoWorker 0; DoWorker 0; DoWorker 0])
       (init unit)).2 =
  Build_World (Build_BotStatus false "crashed" "ValueError('boom')")
              (Some 0) false [Dead (Crashed (Py.ValueError "boom"))].
Proof.
  split; [reflexivity|]. split; [reflexivity|].
  apply (crash_scenario (Py.ValueError "boom") "ValueError('boom')"
           [DoWorker 0; DoWorker 0; DoWorker 0; DoWorker 0; DoWorker 0]).
  - reflexivity.
  - reflexivity.
  - repeat constructor.
  - simpl. lia.
Defined.

Lemma handler_failure_scenario_witness :
  Py.exc_is_Exception Py.Unprintable = true /\
  Py.repr Py.Unprintable = Py.Fails (Py.ValueError "no repr") /\
  (run (raising Py.Unprintable)
       (DoStart :: [DoWorker 0; DoWorker 0; DoWorker 0; DoWorker 0; DoWorker 0])
       (init unit)).2 =
  Build_World (Build_BotStatus true "running" "started") (Some 0) false
              [Dead (HandlerFailed Py.Unprintable (Py.ValueError "no repr"))].
Proof.
  split; [reflexivity|]. split; [reflexivity|].
  apply (handler_failure_scenario Py.Unprintable (Py.ValueError "no repr")
           [DoWorker 0; DoWorker 0; DoWorker 0; DoWorker 0; DoWorker 0]).
  - reflexivity.
  - reflexivity.
  - repeat constructor.
  - simpl. lia.
Defined.

Lemma escape_scenario_witness :
  Py.exc_is_Exception (Py.SystemExit "bye") = false /\
  (run (raising (Py.SystemExit "bye"))
       (DoStart :: [DoWorker 0; DoWorker 0; DoWorker 0; DoWorker 0])
       (init unit)).2 =
  Build_World (Build_BotStatus true "running" "started") (Some 0) false
              [Dead (Escaped (Py.SystemExit "bye"))].
Proof.
  split; [reflexivity|].
  apply (escape_scenario (Py.SystemExit "bye")
           [DoWorker 0; DoWorker 0; DoWorker 0; DoWorker 0]).
  - reflexivity.
  - repeat constructor.
  - simpl. lia.
Defined.

Lemma calls_in_exit_window_witness :
  Forall (fun a => quiet a = true) [DoStatus; DoWorker 0] /\
  1 <= count_worker 0 [DoStatus; DoWorker 0] /\
  (run _run_bot [DoStatus; DoWorker 0]
       (stop (Build_World (Build_BotStatus false "stopped" "finished")
                          (Some 0) true [AtExit Finished])).2).2 =
  Build_World (Build_BotStatus true "stopping" "stop requested")
              (Some 0) true [Dead Finished].
Proof.
  assert (H1 : Forall (fun a => quiet a = true) [DoStatus; DoWorker 0])
    by (repeat constructor).
  assert (H2 : 1 <= count_worker 0 [DoStatus; DoWorker 0]) by (simpl; lia).
  split; [exact H1|]. split; [exact H2|].
  exact (proj1 (calls_in_exit_window unit _run_bot
                  (Build_BotStatus false "stopped" "finished") true Finished
                  [DoStatus; DoWorker 0] H1 H2)).
Defined.
